(** * Sahayata AI: matching, ranking, allocation and impact scoring

    A shallow embedding of the decision logic of the volunteer/opportunity
    engine: [config.py], [agent.py], [agent.utils.py], [matching_agent.py],
    [impact_agent.py] and the single-file variant [ai_agent_system.py].

    Numbers.  Python [float] and [int] values are embedded as exact
    rationals ([Q]); every arithmetic operation of the source is kept, in the
    order the source performs it, and numeric equality is [Qeq] ([==]).
    Rounding of binary floating point is therefore outside this model.

    Effects.  The scoring functions read only their arguments and the
    agent's configuration tables, so they are plain functions.  The
    methods that update [self] or read the clock take the agent and the clock
    readings as arguments and return the new agent next to their result. *)

From Stdlib Require Import QArith Qminmax Lqa ZArith Lia List String Ascii Bool.
From Stdlib Require Import Permutation Sorted.
Import ListNotations.
Local Open Scope string_scope.
Local Open Scope list_scope.
Local Open Scope Q_scope.

(** ** Python built-ins used by the source *)

Module Py.

(** [a < b] on numbers. *)
Definition ltb (a b : Q) : bool := negb (Qle_bool b a).

(** [a >= b] on numbers. *)
Definition geb (a b : Q) : bool := Qle_bool b a.

(** [min(a, b)]: the first argument unless the second is strictly
    smaller. *)
Definition min (a b : Q) : Q := if ltb b a then b else a.

(** [max(a, b)]: the first argument unless the second is strictly
    larger. *)
Definition max (a b : Q) : Q := if ltb a b then b else a.

(** [sum(xs)]: left fold from [0]. *)
Definition sum (xs : list Q) : Q := fold_left Qplus xs 0.

(** [len(xs)] as a number. *)
Definition len {A : Type} (xs : list A) : Q := inject_Z (Z.of_nat (List.length xs)).

(** A [dict] literal: keys in source order.  The tables of this program
    have pairwise distinct keys, so the first hit is the entry. *)
Definition dict (K V : Type) : Type := list (K * V).

(** [d.get(k, default)]. *)
Fixpoint get {K V : Type} (eqb : K -> K -> bool) (d : dict K V) (k : K)
    (default : V) : V :=
  match d with
  | [] => default
  | (k', v) :: d' => if eqb k' k then v else get eqb d' k default
  end.

(** [k in d]. *)
Definition contains {K V : Type} (eqb : K -> K -> bool) (d : dict K V)
    (k : K) : bool :=
  existsb (fun kv => eqb (fst kv) k) d.

(** [d[k]] on a numeric table.  Python raises [KeyError] on a missing key;
    every subscript of the source uses a literal key of a literal table
    (see [MATCHING_WEIGHTS_keys]), so the [0] arm is never taken. *)
Definition getitem {K : Type} (eqb : K -> K -> bool) (d : dict K Q)
    (k : K) : Q :=
  get eqb d k 0.

(** [xs[:n]] for an integer [n]: the first [n] items when [n >= 0],
    all but the last [-n] items when [n < 0]. *)
Definition slice_to {A : Type} (xs : list A) (n : Z) : list A :=
  if (0 <=? n)%Z then firstn (Z.to_nat n) xs
  else firstn (List.length xs - Z.to_nat (- n)) xs.

(** [set(xs)]: the distinct items of [xs].  Iteration order of a Python
    set is unspecified; the source only sums over it and tests emptiness,
    both independent of the order. *)
Definition set (xs : list string) : list string := nodup string_dec xs.

(** [set(xs) & set(ys)]: the distinct items of [ys] that occur in [xs]. *)
Definition set_inter (xs ys : list string) : list string :=
  filter (fun y => existsb (String.eqb y) xs) (set ys).

(** One step of a stable descending sort: [x], which stood before every
    item of [l] in the input, is placed before the first item whose key
    is not larger than its own. *)
Fixpoint insert_desc {A : Type} (key : A -> Q) (x : A) (l : list A)
    : list A :=
  match l with
  | [] => [x]
  | y :: l' =>
      if Qle_bool (key y) (key x) then x :: y :: l'
      else y :: insert_desc key x l'
  end.

(** [sorted(xs, key=key, reverse=True)] and [xs.sort(key=key,
    reverse=True)]: descending by key, and stable (items with equal keys
    keep their input order, also under [reverse=True]). *)
Definition sorted_desc {A : Type} (key : A -> Q) (xs : list A) : list A :=
  fold_right (insert_desc key) [] xs.

(** ASCII [str.lower()], used to state case-insensitive comparison. *)
Definition lower_ascii (c : ascii) : ascii :=
  let n := nat_of_ascii c in
  if ((65 <=? n) && (n <=? 90))%nat then ascii_of_nat (n + 32) else c.

Fixpoint lower (s : string) : string :=
  match s with
  | EmptyString => EmptyString
  | String c s' => String (lower_ascii c) (lower s')
  end.

(** [set(xs) | set(ys)]: the distinct items of [xs], then the distinct
    items of [ys] that do not occur in [xs]. *)
Definition set_union (xs ys : list string) : list string :=
  set xs ++ filter (fun y => negb (existsb (String.eqb y) xs)) (set ys).

(** [d[k] = v]: the entry of [k] is replaced where it stands, a new key is
    added at the end. *)
Fixpoint setitem {K V : Type} (eqb : K -> K -> bool) (d : dict K V) (k : K)
    (v : V) : dict K V :=
  match d with
  | [] => [(k, v)]
  | (k', v') :: d' =>
      if eqb k' k then (k', v) :: d' else (k', v') :: setitem eqb d' k v
  end.

(** [a <= b] on pairs of integers: tuples compare lexicographically. *)
Definition pair_leb (a b : Z * Z) : bool :=
  ((fst a <? fst b) || ((fst a =? fst b) && (snd a <=? snd b)))%Z.

Fixpoint insert_desc_pair {A : Type} (key : A -> Z * Z) (x : A) (l : list A)
    : list A :=
  match l with
  | [] => [x]
  | y :: l' =>
      if pair_leb (key y) (key x) then x :: y :: l'
      else y :: insert_desc_pair key x l'
  end.

(** [sorted(xs, key=key, reverse=True)] for a key that is a pair. *)
Definition sorted_desc_pair {A : Type} (key : A -> Z * Z) (xs : list A)
    : list A :=
  fold_right (insert_desc_pair key) [] xs.

End Py.

(** ** [config.py] *)

Inductive ImpactArea : Type :=
  | EDUCATION | HEALTHCARE | ENVIRONMENT | POVERTY | EQUALITY | DISASTER_RELIEF.

Inductive UrgencyLevel : Type := LOW | MEDIUM | HIGH | CRITICAL.

Module ImpactAreaM.
(** The [.value] of a member. *)
Definition value (a : ImpactArea) : string :=
  match a with
  | EDUCATION => "education"
  | HEALTHCARE => "healthcare"
  | ENVIRONMENT => "environment"
  | POVERTY => "poverty"
  | EQUALITY => "equality"
  | DISASTER_RELIEF => "disaster_relief"
  end.

(** [a == b] on members: identity. *)
Definition eqb (a b : ImpactArea) : bool :=
  match a, b with
  | EDUCATION, EDUCATION | HEALTHCARE, HEALTHCARE
  | ENVIRONMENT, ENVIRONMENT | POVERTY, POVERTY
  | EQUALITY, EQUALITY | DISASTER_RELIEF, DISASTER_RELIEF => true
  | _, _ => false
  end.
End ImpactAreaM.

Module UrgencyLevelM.
(** The [.value] of a member. *)
Definition value (u : UrgencyLevel) : Z :=
  match u with LOW => 1 | MEDIUM => 2 | HIGH => 3 | CRITICAL => 4 end%Z.

Definition eqb (a b : UrgencyLevel) : bool :=
  match a, b with
  | LOW, LOW | MEDIUM, MEDIUM | HIGH, HIGH | CRITICAL, CRITICAL => true
  | _, _ => false
  end.
End UrgencyLevelM.

(** A dictionary key as Python sees it: a [str] or a member of the plain
    [Enum] class [ImpactArea].  A plain [Enum] member is equal only to
    itself; it is never equal to a [str], not even to its own [.value]. *)
Inductive PyKey : Type :=
  | KStr (s : string)
  | KArea (a : ImpactArea).

Definition PyKey_eqb (k1 k2 : PyKey) : bool :=
  match k1, k2 with
  | KStr s1, KStr s2 => String.eqb s1 s2
  | KArea a1, KArea a2 => ImpactAreaM.eqb a1 a2
  | _, _ => false
  end.

Module AgentConfig.

Definition MATCHING_WEIGHTS : Py.dict string Q :=
  [ ("skills", 0.4);
    ("location", 0.2);
    ("interests", 0.15);
    ("urgency", 0.1);
    ("experience", 0.1);
    ("availability", 0.05) ].

Definition IMPACT_MULTIPLIERS : Py.dict PyKey Q :=
  [ (KStr "disaster_relief", 2.0);
    (KStr "healthcare", 1.5);
    (KStr "education", 1.3);
    (KStr "poverty", 1.4);
    (KStr "environment", 1.2);
    (KStr "equality", 1.3) ].

Definition MAX_RECOMMENDATIONS : Z := 5.
Definition MIN_MATCH_SCORE : Q := 0.3.
Definition CRISIS_RESPONSE_RADIUS_KM : Z := 50.

End AgentConfig.


(** ** [agent.py]: the records *)

(** [datetime] values: seconds on the clock's time line. *)
Definition datetime : Type := Z.

Module Volunteer.
Record t : Type := mk {
  id : string;
  name : string;
  skills : list string;
  location : string;
  availability : Py.dict string bool;
  interests : list ImpactArea;
  experience_level : string;
  languages : list string;
  max_hours_per_week : Z;
  email : string;
  phone : option string;
  created_at : datetime
}.
End Volunteer.

Module Opportunity.
Record t : Type := mk {
  id : string;
  title : string;
  organization : string;
  description : string;
  required_skills : list string;
  location : string;
  impact_area : ImpactArea;
  urgency : UrgencyLevel;
  timeframe : Py.dict string datetime;
  volunteers_needed : Z;
  resources_required : Py.dict string Z;
  created_at : datetime
}.
End Opportunity.

Module MatchResult.
Record t : Type := mk {
  volunteer : Volunteer.t;
  opportunity : Opportunity.t;
  match_score : Q;
  reasoning : list string;
  confidence : Q
}.
End MatchResult.

(** ** [agent.utils.py] *)

Module AgentUtils.

(** [calculate_urgency_multiplier]: the table is keyed by the members
    themselves, so every member hits its entry. *)
Definition calculate_urgency_multiplier (urgency_level : UrgencyLevel) : Q :=
  let multipliers :=
    [ (LOW, 0.5); (MEDIUM, 1.0); (HIGH, 1.5); (CRITICAL, 2.0) ] in
  Py.get UrgencyLevelM.eqb multipliers urgency_level 1.0.

(** [calculate_impact_score]: the utility that caps both base terms. *)
Definition calculate_impact_score (people_helped hours_contributed
    quality_rating : Q) : Q :=
  let base_score := Py.min (people_helped * 0.1) 0.4 in
  let time_score := Py.min (hours_contributed * quality_rating * 0.05) 0.3 in
  base_score + time_score.

(** [calculate_similarity]: a Python [set] argument is given by a list of
    its items. *)
Definition calculate_similarity (set1 set2 : list string) : Q :=
  match Py.set set1, Py.set set2 with
  | [], [] => 0.0
  | _, _ =>
      let intersection := Py.len (Py.set_inter set1 set2) in
      let union := Py.len (Py.set_union set1 set2) in
      if Py.ltb 0 union then intersection / union else 0.0
  end.

(** [normalize_score]: [None] is the [ZeroDivisionError] that
    [score / max_score] raises for [max_score == 0]. *)
Definition normalize_score (score max_score : Q) : option Q :=
  if Qeq_bool max_score 0 then None
  else Some (Py.max 0.0 (Py.min (score / max_score) 1.0)).

End AgentUtils.

(** ** [matching_agent.py] *)

Module MatchingAgent.

(** The attributes [__init__] sets (the logger is not modelled). *)
Record t : Type := mk { skill_weights : Py.dict string Q }.

Definition __init__ : t := mk AgentConfig.MATCHING_WEIGHTS.

(** [self.skill_weights.get(skill, 1.0)] *)
Definition weight (self : t) (skill : string) : Q :=
  Py.get String.eqb (skill_weights self) skill 1.0.

(** [self.skill_weights[k]] *)
Definition w (self : t) (k : string) : Q :=
  Py.getitem String.eqb (skill_weights self) k.

Definition _calculate_skill_match (self : t)
    (volunteer_skills required_skills : list string) : Q :=
  match required_skills with
  | [] => 0.5
  | _ :: _ =>
      let matched_skills := Py.set_inter volunteer_skills required_skills in
      match matched_skills with
      | [] => 0.0
      | _ :: _ =>
          let total_weight := Py.sum (map (weight self) matched_skills) in
          let max_possible := Py.sum (map (weight self) required_skills) in
          total_weight / max_possible
      end
  end.

Definition _calculate_experience_score (experience_level : string) : Q :=
  let levels :=
    [ ("beginner", 0.3); ("intermediate", 0.7); ("expert", 1.0) ] in
  Py.get String.eqb levels experience_level 0.5.

(** [any(availability.values())]; [timeframe] is not read. *)
Definition _calculate_availability_match (availability : Py.dict string bool)
    (timeframe : Py.dict string datetime) : Q :=
  if existsb (fun b : bool => b) (map snd availability) then 0.8 else 0.2.

(** The location sub-score: [==] on [str], which compares character by
    character and distinguishes letter case. *)
Definition location_score (volunteer : Volunteer.t)
    (opportunity : Opportunity.t) : Q :=
  if String.eqb (Volunteer.location volunteer)
                (Opportunity.location opportunity)
  then 1.0 else 0.3.

Definition _calculate_compatibility (self : t) (volunteer : Volunteer.t)
    (opportunity : Opportunity.t) : Q * list string * Q :=
  let score := 0.0 in
  let reasoning : list string := [] in
  let max_score := 0.0 in
  (* Skill matching *)
  let skill_score :=
    _calculate_skill_match self (Volunteer.skills volunteer)
      (Opportunity.required_skills opportunity) in
  let score := score + skill_score * w self "skills" in
  let max_score := max_score + w self "skills" in
  let reasoning :=
    if Py.ltb 0.6 skill_score
    then reasoning ++ ["Strong skill alignment"] else reasoning in
  (* Location matching *)
  let location_score := location_score volunteer opportunity in
  let score := score + location_score * w self "location" in
  let max_score := max_score + w self "location" in
  let reasoning :=
    if Qeq_bool location_score 1.0
    then reasoning ++ ["Perfect location match"] else reasoning in
  (* Interest alignment *)
  let interest_score :=
    if existsb (ImpactAreaM.eqb (Opportunity.impact_area opportunity))
         (Volunteer.interests volunteer)
    then 1.0 else 0.2 in
  let score := score + interest_score * w self "interests" in
  let max_score := max_score + w self "interests" in
  let reasoning :=
    if Qeq_bool interest_score 1.0
    then reasoning ++ ["Matches interests"] else reasoning in
  (* Urgency consideration *)
  let urgency_value := UrgencyLevelM.value (Opportunity.urgency opportunity) in
  let urgency_score := inject_Z urgency_value * 0.25 in
  let score := score + Py.min urgency_score (w self "urgency") in
  let max_score := max_score + w self "urgency" in
  let reasoning :=
    if (3 <=? urgency_value)%Z
    then reasoning ++ ["High urgency need"] else reasoning in
  (* Experience level *)
  let exp_score :=
    _calculate_experience_score (Volunteer.experience_level volunteer) in
  let score := score + exp_score * w self "experience" in
  let max_score := max_score + w self "experience" in
  (* Availability *)
  let avail_score :=
    _calculate_availability_match (Volunteer.availability volunteer)
      (Opportunity.timeframe opportunity) in
  let score := score + avail_score * w self "availability" in
  let max_score := max_score + w self "availability" in
  (* Normalize and calculate confidence *)
  let normalized_score :=
    if Py.ltb 0 max_score then score / max_score else 0 in
  let confidence := Py.min (normalized_score * 1.2) 1.0 in
  (normalized_score, reasoning, confidence).

(** The three components of the returned tuple. *)
Definition score_of (self : t) (v : Volunteer.t) (o : Opportunity.t) : Q :=
  fst (fst (_calculate_compatibility self v o)).

Definition reasoning_of (self : t) (v : Volunteer.t) (o : Opportunity.t)
    : list string :=
  snd (fst (_calculate_compatibility self v o)).

Definition confidence_of (self : t) (v : Volunteer.t) (o : Opportunity.t)
    : Q :=
  snd (_calculate_compatibility self v o).

(** The [MatchResult(...)] built in the loop bodies. *)
Definition result (self : t) (v : Volunteer.t) (o : Opportunity.t)
    : MatchResult.t :=
  MatchResult.mk v o (score_of self v o) (reasoning_of self v o)
    (confidence_of self v o).

(** The [for] loop of [find_matches]: [matches] after the loop, in the
    order of [opportunities]. *)
Fixpoint find_matches_loop (self : t) (volunteer : Volunteer.t)
    (opportunities : list Opportunity.t) : list MatchResult.t :=
  match opportunities with
  | [] => []
  | opportunity :: rest =>
      if Py.geb (score_of self volunteer opportunity)
                AgentConfig.MIN_MATCH_SCORE
      then result self volunteer opportunity
             :: find_matches_loop self volunteer rest
      else find_matches_loop self volunteer rest
  end.

Definition find_matches (self : t) (volunteer : Volunteer.t)
    (opportunities : list Opportunity.t) : list MatchResult.t :=
  let matches := find_matches_loop self volunteer opportunities in
  let matches := Py.sorted_desc MatchResult.match_score matches in
  Py.slice_to matches AgentConfig.MAX_RECOMMENDATIONS.

(** The [for] loop of [find_volunteers], in the order of [volunteers]. *)
Fixpoint find_volunteers_loop (self : t) (opportunity : Opportunity.t)
    (volunteers : list Volunteer.t) : list MatchResult.t :=
  match volunteers with
  | [] => []
  | volunteer :: rest =>
      if Py.geb (score_of self volunteer opportunity)
                (AgentConfig.MIN_MATCH_SCORE + 0.1)
      then result self volunteer opportunity
             :: find_volunteers_loop self opportunity rest
      else find_volunteers_loop self opportunity rest
  end.

Definition find_volunteers (self : t) (opportunity : Opportunity.t)
    (volunteers : list Volunteer.t) : list MatchResult.t :=
  let matches := find_volunteers_loop self opportunity volunteers in
  let matches := Py.sorted_desc MatchResult.match_score matches in
  Py.slice_to matches (Opportunity.volunteers_needed opportunity).

End MatchingAgent.

(** ** [impact_agent.py] *)

(** The [outcomes] dictionary, restricted to the keys the source reads;
    [None] is an absent key, so [outcomes.get(k, d)] is [get_or d]. *)
Module Outcomes.
Record t : Type := mk {
  people_impacted : option Q;
  hours_contributed : option Q;
  quality_rating : option Q;
  sustainability_score : option Q;
  feedback : option (Py.dict string string)
}.

Definition get_or {A : Type} (default : A) (field : option A) : A :=
  match field with Some x => x | None => default end.
End Outcomes.

(** The [completion_record] dictionary. *)
Module CompletionRecord.
Record t : Type := mk {
  volunteer_id : string;
  volunteer_name : string;
  opportunity_id : string;
  opportunity_title : string;
  completion_date : datetime;
  hours_contributed : Q;
  people_impacted : Q;
  quality_rating : Q;
  sustainability_score : Q;
  impact_score : Q;
  feedback : Py.dict string string;
  calculated_at : datetime
}.
End CompletionRecord.

Module ImpactAgent.

(** The attributes [__init__] sets (the logger is not modelled). *)
Record t : Type := mk {
  completed_projects : list CompletionRecord.t;
  impact_multipliers : Py.dict PyKey Q
}.

Definition __init__ : t := mk [] AgentConfig.IMPACT_MULTIPLIERS.

(** [self.impact_multipliers.get(opportunity.impact_area, 1.0)]: the key is
    the member held by the record, as it is. *)
Definition area_multiplier (self : t) (opportunity : Opportunity.t) : Q :=
  Py.get PyKey_eqb (impact_multipliers self)
    (KArea (Opportunity.impact_area opportunity)) 1.0.

Definition _calculate_impact_score (self : t) (opportunity : Opportunity.t)
    (outcomes : Outcomes.t) : Q :=
  let base_score := 0.0 in
  (* People impacted *)
  let people_impacted :=
    Outcomes.get_or 0 (Outcomes.people_impacted outcomes) in
  let base_score := base_score + Py.min (people_impacted * 0.1) 0.4 in
  (* Hours contributed with quality multiplier *)
  let hours := Outcomes.get_or 0 (Outcomes.hours_contributed outcomes) in
  let quality := Outcomes.get_or 0.5 (Outcomes.quality_rating outcomes) in
  let base_score := base_score + (hours * quality * 0.05) in
  (* Area-specific multiplier *)
  let area_multiplier := area_multiplier self opportunity in
  (* Urgency multiplier *)
  let urgency_multiplier :=
    AgentUtils.calculate_urgency_multiplier (Opportunity.urgency opportunity) in
  (* Sustainability factor *)
  let sustainability :=
    Outcomes.get_or 0.5 (Outcomes.sustainability_score outcomes) in
  let final_score :=
    base_score * area_multiplier * urgency_multiplier * (1 + sustainability) in
  Py.min final_score 1.0.

(** [record_completion]: [now1] and [now2] are the two readings of
    [datetime.now()], in evaluation order.  The result is the returned
    record and the agent after [self.completed_projects.append(...)]. *)
Definition record_completion (self : t) (now1 now2 : datetime)
    (volunteer : Volunteer.t) (opportunity : Opportunity.t)
    (outcomes : Outcomes.t) : CompletionRecord.t * t :=
  let impact_score := _calculate_impact_score self opportunity outcomes in
  let completion_record :=
    CompletionRecord.mk
      (Volunteer.id volunteer)
      (Volunteer.name volunteer)
      (Opportunity.id opportunity)
      (Opportunity.title opportunity)
      now1
      (Outcomes.get_or 0 (Outcomes.hours_contributed outcomes))
      (Outcomes.get_or 0 (Outcomes.people_impacted outcomes))
      (Outcomes.get_or 0.5 (Outcomes.quality_rating outcomes))
      (Outcomes.get_or 0.5 (Outcomes.sustainability_score outcomes))
      impact_score
      (Outcomes.get_or [] (Outcomes.feedback outcomes))
      now2 in
  (completion_record,
   mk (completed_projects self ++ [completion_record])
      (impact_multipliers self)).

(** [timedelta(days=n)] in seconds. *)
Definition timedelta_days (n : Z) : Z := (n * 86400)%Z.

(** The window filter of [generate_report]; [now] is the reading of
    [datetime.now()]. *)
Definition recent_completions (self : t) (now : datetime)
    (timeframe_days : Z) : list CompletionRecord.t :=
  let cutoff_date := (now - timedelta_days timeframe_days)%Z in
  filter (fun c => (cutoff_date <=? CompletionRecord.completion_date c)%Z)
    (completed_projects self).

(** The ["total_completions"] entry of both branches of
    [generate_report]. *)
Definition total_completions (self : t) (now : datetime)
    (timeframe_days : Z) : Z :=
  Z.of_nat (List.length (recent_completions self now timeframe_days)).

(** The ["total_volunteer_hours"] and ["total_people_impacted"] entries
    and the ["unique_volunteers"] count of [generate_report], for a window
    that holds a completion. *)
Definition total_volunteer_hours (self : t) (now : datetime)
    (timeframe_days : Z) : Q :=
  Py.sum (map CompletionRecord.hours_contributed
            (recent_completions self now timeframe_days)).

Definition total_people_impacted (self : t) (now : datetime)
    (timeframe_days : Z) : Q :=
  Py.sum (map CompletionRecord.people_impacted
            (recent_completions self now timeframe_days)).

Definition unique_volunteers (self : t) (now : datetime)
    (timeframe_days : Z) : Z :=
  Z.of_nat
    (List.length
       (Py.set (map CompletionRecord.volunteer_id
                  (recent_completions self now timeframe_days)))).

End ImpactAgent.

(** ** The formula of the specification's impact scorer

    Written from the words of the specification, to be compared with
    [ImpactAgent._calculate_impact_score]: both base terms capped. *)
Module SpecImpact.

Definition base (people_impacted hours_contributed quality_rating : Q) : Q :=
  Py.min (people_impacted * 0.1) 0.4
  + Py.min (hours_contributed * quality_rating * 0.05) 0.3.

Definition score (area_multiplier urgency_multiplier people_impacted
    hours_contributed quality_rating sustainability_score : Q) : Q :=
  Py.min
    (base people_impacted hours_contributed quality_rating
     * area_multiplier * urgency_multiplier * (1 + sustainability_score))
    1.0.

End SpecImpact.

(** ** [ai_agent_system.py]: the single-file variant

    Its [Volunteer] and [Opportunity] are the records above without the
    contact and creation fields, which none of its methods reads. *)

Module SmartMatchingAgent.

Record t : Type := mk { skill_weights : Py.dict string Q }.

Definition __init__ : t :=
  mk [ ("technical", 1.2); ("medical", 1.3); ("teaching", 1.1);
       ("construction", 1.1); ("leadership", 1.2); ("language", 1.1) ].

Definition weight (self : t) (skill : string) : Q :=
  Py.get String.eqb (skill_weights self) skill 1.0.

Definition _calculate_skill_match (self : t)
    (volunteer_skills required_skills : list string) : Q :=
  match required_skills with
  | [] => 0.5
  | _ :: _ =>
      let matched_skills := Py.set_inter volunteer_skills required_skills in
      match matched_skills with
      | [] => 0.0
      | _ :: _ =>
          let total_weight := Py.sum (map (weight self) matched_skills) in
          let max_possible := Py.sum (map (weight self) required_skills) in
          total_weight / max_possible
      end
  end.

Definition location_score (volunteer : Volunteer.t)
    (opportunity : Opportunity.t) : Q :=
  if String.eqb (Volunteer.location volunteer)
                (Opportunity.location opportunity)
  then 1.0 else 0.3.

Section Helpers.

(** [_calculate_match] calls [self._calculate_experience_score] and
    [self._calculate_availability_match], which this class does not
    define; they are taken as given functions. *)
Variable _calculate_experience_score : string -> Q.
Variable _calculate_availability_match :
  Py.dict string bool -> Py.dict string datetime -> Q.

Definition _calculate_match (self : t) (volunteer : Volunteer.t)
    (opportunity : Opportunity.t) : Q * list string * Q :=
  let score := 0.0 in
  let reasoning : list string := [] in
  let max_score := 0.0 in
  (* Skill matching (40%) *)
  let skill_score :=
    _calculate_skill_match self (Volunteer.skills volunteer)
      (Opportunity.required_skills opportunity) in
  let score := score + skill_score * 0.4 in
  let max_score := max_score + 0.4 in
  let reasoning :=
    if Py.ltb 0.6 skill_score
    then reasoning ++ ["Strong skill alignment"] else reasoning in
  (* Location matching (20%) *)
  let location_score := location_score volunteer opportunity in
  let score := score + location_score * 0.2 in
  let max_score := max_score + 0.2 in
  let reasoning :=
    if Qeq_bool location_score 1.0
    then reasoning ++ ["Perfect location match"] else reasoning in
  (* Interest alignment (15%) *)
  let interest_score :=
    if existsb (ImpactAreaM.eqb (Opportunity.impact_area opportunity))
         (Volunteer.interests volunteer)
    then 1.0 else 0.2 in
  let score := score + interest_score * 0.15 in
  let max_score := max_score + 0.15 in
  let reasoning :=
    if Qeq_bool interest_score 1.0
    then reasoning ++ ["Matches volunteer interests"] else reasoning in
  (* Urgency consideration (10%) *)
  let urgency_value := UrgencyLevelM.value (Opportunity.urgency opportunity) in
  let urgency_score := inject_Z urgency_value * 0.25 in
  let score := score + Py.min urgency_score 0.1 in
  let max_score := max_score + 0.1 in
  let reasoning :=
    if (3 <=? urgency_value)%Z
    then reasoning ++ ["High urgency need"] else reasoning in
  (* Experience level (10%) *)
  let exp_score :=
    _calculate_experience_score (Volunteer.experience_level volunteer) in
  let score := score + exp_score * 0.1 in
  let max_score := max_score + 0.1 in
  (* Availability (5%) *)
  let avail_score :=
    _calculate_availability_match (Volunteer.availability volunteer)
      (Opportunity.timeframe opportunity) in
  let score := score + avail_score * 0.05 in
  let max_score := max_score + 0.05 in
  (* Normalize score *)
  let normalized_score :=
    if Py.ltb 0 max_score then score / max_score else 0 in
  let confidence := Py.min (normalized_score * 1.2) 1.0 in
  (normalized_score, reasoning, confidence).

Definition result (self : t) (v : Volunteer.t) (o : Opportunity.t)
    : MatchResult.t :=
  let '(score, reasoning, confidence) := _calculate_match self v o in
  MatchResult.mk v o score reasoning confidence.





End Helpers.

End SmartMatchingAgent.

(** One entry of [allocation['assigned_volunteers']]. *)
Module Assignment.
Record t : Type := mk {
  volunteer_id : string;
  match_score : Q;
  role : string
}.
End Assignment.

(** The [allocation] dictionary. *)
Module Allocation.
Record t : Type := mk {
  assigned_volunteers : list Assignment.t;
  resource_distribution : Py.dict string Z;
  expected_impact : Q;
  efficiency_score : Q
}.
End Allocation.

Module ResourceOptimizationAgent.

Record t : Type := mk { impact_multipliers : Py.dict PyKey Q }.

(** This table is keyed by the members themselves. *)
Definition __init__ : t :=
  mk [ (KArea DISASTER_RELIEF, 2.0);
       (KArea HEALTHCARE, 1.5);
       (KArea EDUCATION, 1.3);
       (KArea POVERTY, 1.4);
       (KArea ENVIRONMENT, 1.2);
       (KArea EQUALITY, 1.3) ].

(** [volunteers] holds [MatchResult]s: the method reads [match_score]. *)
Definition _calculate_expected_impact (self : t) (opportunity : Opportunity.t)
    (volunteers : list MatchResult.t) : Q :=
  let base_impact :=
    inject_Z (UrgencyLevelM.value (Opportunity.urgency opportunity)) * 0.25 in
  let skill_multiplier :=
    match volunteers with
    | [] => 0
    | _ :: _ =>
        Py.sum (map MatchResult.match_score volunteers) / Py.len volunteers
    end in
  let area_multiplier :=
    Py.get PyKey_eqb (impact_multipliers self)
      (KArea (Opportunity.impact_area opportunity)) 1.0 in
  base_impact * skill_multiplier * area_multiplier.

Section Helpers.

(** [_assign_role] and [_calculate_efficiency] are called by
    [allocate_resources] but their bodies are not part of the sources at
    hand; they are taken as given functions. *)
Variable _assign_role : Volunteer.t -> Opportunity.t -> string.
Variable _calculate_efficiency : Opportunity.t -> list MatchResult.t -> Q.

Definition allocate_resources (self : t) (opportunity : Opportunity.t)
    (volunteers : list MatchResult.t) : Allocation.t :=
  (* Sort volunteers by match score and availability *)
  let sorted_volunteers :=
    Py.slice_to (Py.sorted_desc MatchResult.match_score volunteers)
      (Opportunity.volunteers_needed opportunity) in
  let assigned_volunteers :=
    map (fun m =>
           Assignment.mk
             (Volunteer.id (MatchResult.volunteer m))
             (MatchResult.match_score m)
             (_assign_role (MatchResult.volunteer m) opportunity))
        sorted_volunteers in
  (* Calculate expected impact *)
  let expected_impact :=
    _calculate_expected_impact self opportunity sorted_volunteers in
  let efficiency_score :=
    _calculate_efficiency opportunity sorted_volunteers in
  Allocation.mk assigned_volunteers [] expected_impact efficiency_score.

End Helpers.

End ResourceOptimizationAgent.

Module ImpactTrackingAgent.

Record t : Type := mk {
  projects_completed : Z;
  total_impact_score : Q;
  volunteer_hours_logged : Q
}.

Definition __init__ : t := mk 0 0.0 0.

Definition _calculate_impact_score (opportunity : Opportunity.t)
    (outcomes : Outcomes.t) : Q :=
  let base_score := 0.0 in
  let people_impacted :=
    Outcomes.get_or 0 (Outcomes.people_impacted outcomes) in
  let base_score := base_score + Py.min (people_impacted * 0.1) 0.4 in
  let hours := Outcomes.get_or 0 (Outcomes.hours_contributed outcomes) in
  let quality := Outcomes.get_or 0.5 (Outcomes.quality_rating outcomes) in
  let base_score := base_score + (hours * quality * 0.05) in
  let urgency_multiplier :=
    inject_Z (UrgencyLevelM.value (Opportunity.urgency opportunity)) * 0.25 in
  let sustainability :=
    Outcomes.get_or 0.5 (Outcomes.sustainability_score outcomes) in
  let final_score := base_score * urgency_multiplier * (1 + sustainability) in
  Py.min final_score 1.0.

(** The counters after the three [+=] updates. *)
Definition record_completion_state (self : t) (opportunity : Opportunity.t)
    (outcomes : Outcomes.t) : t :=
  let impact_score := _calculate_impact_score opportunity outcomes in
  mk (projects_completed self + 1)%Z
     (total_impact_score self + impact_score)
     (volunteer_hours_logged self
      + Outcomes.get_or 0 (Outcomes.hours_contributed outcomes)).

(** The ["average_impact_per_project"] entry of [generate_impact_report]:
    [self.total_impact_score / max(self.projects_completed, 1)]. *)
Definition average_impact_per_project (self : t) : Q :=
  total_impact_score self / inject_Z (Z.max (projects_completed self) 1).

(** The agent after a sequence of [record_completion] calls. *)
Definition record_all (self : t)
    (completions : list (Opportunity.t * Outcomes.t)) : t :=
  fold_left (fun st c => record_completion_state st (fst c) (snd c))
    completions self.

End ImpactTrackingAgent.

(** ** [agent.py]: the orchestrator *)

Module SocialGoodOrchestrator.

(** The lists the orchestrator owns and the two sub-agents whose code is at
    hand (the communication, crisis and optimization agents are not). *)
Record t : Type := mk {
  volunteers : list Volunteer.t;
  opportunities : list Opportunity.t;
  completed_projects : list CompletionRecord.t;
  matcher : MatchingAgent.t;
  impact_tracker : ImpactAgent.t
}.

Definition __init__ : t :=
  mk [] [] [] MatchingAgent.__init__ ImpactAgent.__init__.

(** [register_volunteer]: the volunteer built from the data is appended,
    and its matches are computed against the opportunities known so far. *)
Definition register_volunteer (self : t) (volunteer : Volunteer.t)
    : list MatchResult.t * t :=
  let self' :=
    mk (volunteers self ++ [volunteer]) (opportunities self)
       (completed_projects self) (matcher self) (impact_tracker self) in
  (MatchingAgent.find_matches (matcher self') volunteer (opportunities self'),
   self').

(** [create_opportunity]: the opportunity is appended, and the suitable
    volunteers are computed among those registered so far. *)
Definition create_opportunity (self : t) (opportunity : Opportunity.t)
    : list MatchResult.t * t :=
  let self' :=
    mk (volunteers self) (opportunities self ++ [opportunity])
       (completed_projects self) (matcher self) (impact_tracker self) in
  (MatchingAgent.find_volunteers (matcher self') opportunity
     (volunteers self'),
   self').

Definition _calculate_proximity (loc1 loc2 : string) : Z :=
  if String.eqb (Py.lower loc1) (Py.lower loc2) then 0%Z else 25%Z.

(** [_mobilize_emergency_response]: the count it returns;
    [crisis_location] is [crisis_data['location']]. *)
Definition _mobilize_emergency_response (self : t) (crisis_location : string)
    : Z :=
  let nearby_volunteers :=
    filter (fun v =>
              (_calculate_proximity (Volunteer.location v) crisis_location
               <? AgentConfig.CRISIS_RESPONSE_RADIUS_KM)%Z)
      (volunteers self) in
  Z.of_nat (List.length nearby_volunteers).

(** The ["active_crises"] entry of [get_system_analytics]. *)
Definition active_crises (self : t) : Z :=
  Z.of_nat
    (List.length
       (filter (fun o => UrgencyLevelM.eqb (Opportunity.urgency o) CRITICAL)
          (opportunities self))).



End SocialGoodOrchestrator.

(** ** [tools.py]: the analytics helpers *)

(** A completion dictionary as [generate_impact_report] reads it: [None]
    is an absent key. *)
Module CompletionDict.
Record t : Type := mk {
  hours_contributed : option Q;
  people_impacted : option Q;
  impact_score : option Q
}.
End CompletionDict.

Module ImpactReport.
Record t : Type := mk {
  total_completions : Z;
  total_volunteer_hours : Q;
  total_people_impacted : Q;
  average_impact_score : Q;
  efficiency_rating : Q
}.
End ImpactReport.

Module AnalyticsEngine.

Definition calculate_match_quality (volunteer_skills required_skills
    : list string) : Q :=
  match required_skills with
  | [] => 0.5
  | _ :: _ =>
      let matched := Py.set_inter volunteer_skills required_skills in
      Py.len matched / Py.len required_skills
  end.

Definition generate_impact_report (completions : list CompletionDict.t)
    : ImpactReport.t :=
  let total_hours :=
    Py.sum (map (fun c => Outcomes.get_or 0 (CompletionDict.hours_contributed c))
              completions) in
  let total_people :=
    Py.sum (map (fun c => Outcomes.get_or 0 (CompletionDict.people_impacted c))
              completions) in
  let avg_impact :=
    match completions with
    | [] => 0
    | _ :: _ =>
        Py.sum (map (fun c => Outcomes.get_or 0 (CompletionDict.impact_score c))
                  completions)
        / Py.len completions
    end in
  ImpactReport.mk
    (Z.of_nat (List.length completions))
    total_hours
    total_people
    avg_impact
    (Py.min (total_people / Py.max total_hours 1) 10.0).

End AnalyticsEngine.

(** ** [main.py]: the dictionary-based agents *)

Module Main.

(** An opportunity dictionary, restricted to the keys the allocation
    reads. *)
Module Opportunity.
Record t : Type := mk {
  id : Z;
  urgency : Z;
  required_skills : list string
}.
End Opportunity.

Module ResourceOptimizationAgent.

Definition estimate_resource_needs (opportunity : Opportunity.t)
    : Py.dict string Z :=
  let n := Z.of_nat (List.length (Opportunity.required_skills opportunity)) in
  [ ("volunteers", n);
    ("funding", (Opportunity.urgency opportunity * 100)%Z);
    ("equipment", Z.max (n - 2) 1);
    ("supervision", if (3 <? n)%Z then 1%Z else 0%Z) ].

(** The inner [for] loop: [op_allocation] and [remaining_resources] after
    the needs are served in order.  The subtraction reads the entry that
    the [get] just found positive. *)
Fixpoint allocate_needs (needs op_allocation remaining_resources
    : Py.dict string Z) : Py.dict string Z * Py.dict string Z :=
  match needs with
  | [] => (op_allocation, remaining_resources)
  | (resource_type, needed) :: rest =>
      let allocated :=
        Z.min needed (Py.get String.eqb remaining_resources resource_type 0%Z)
      in
      if (0 <? allocated)%Z
      then
        allocate_needs rest
          (Py.setitem String.eqb op_allocation resource_type allocated)
          (Py.setitem String.eqb remaining_resources resource_type
             (Py.get String.eqb remaining_resources resource_type 0
              - allocated)%Z)
      else allocate_needs rest op_allocation remaining_resources
  end.

(** The outer [for] loop over the prioritised opportunities. *)
Fixpoint allocate_loop (prioritized_ops : list Opportunity.t)
    (allocation : Py.dict Z (Py.dict string Z))
    (remaining_resources : Py.dict string Z)
    : Py.dict Z (Py.dict string Z) :=
  match prioritized_ops with
  | [] => allocation
  | opportunity :: rest =>
      let '(op_allocation, remaining_resources) :=
        allocate_needs (estimate_resource_needs opportunity) []
          remaining_resources in
      match op_allocation with
      | [] => allocate_loop rest allocation remaining_resources
      | _ :: _ =>
          allocate_loop rest
            (Py.setitem Z.eqb allocation (Opportunity.id opportunity)
               op_allocation)
            remaining_resources
      end
  end.

Definition allocate_resources (opportunities : list Opportunity.t)
    (available_resources : Py.dict string Z)
    : Py.dict Z (Py.dict string Z) :=
  let prioritized_ops :=
    Py.sorted_desc_pair
      (fun x =>
         (Opportunity.urgency x,
          (- Z.of_nat (List.length (Opportunity.required_skills x)))%Z))
      opportunities in
  allocate_loop prioritized_ops [] available_resources.

End ResourceOptimizationAgent.

End Main.

(** The amount of one resource type over a whole allocation. *)
Definition allocated_total (allocation : Py.dict Z (Py.dict string Z))
    (resource_type : string) : Z :=
  fold_right
    (fun entry acc => (Py.get String.eqb (snd entry) resource_type 0 + acc)%Z)
    0%Z allocation.

(** ** Predicates used in the statements *)

(** A ranking is descending: every item scores at least as much as every
    later one. *)
Definition sorted_descending (ms : list MatchResult.t) : Prop :=
  StronglySorted
    (fun a b => MatchResult.match_score b <= MatchResult.match_score a) ms.

(** The items of [ms] whose score equals [s]. *)
Definition with_score (s : Q) (ms : list MatchResult.t) : list MatchResult.t :=
  filter (fun m => Qeq_bool (MatchResult.match_score m) s) ms.

(** [out] keeps the order of [input] among equal scores: for every score,
    the items of [out] with that score are the first items of [input] with
    that score, in the same order. *)
Definition keeps_input_order (input out : list MatchResult.t) : Prop :=
  forall s : Q, exists rest : list MatchResult.t,
    with_score s input = with_score s out ++ rest.

(** Two location tags that differ at most in the case of ASCII letters. *)
Definition same_ignoring_case (a b : string) : Prop :=
  Py.lower a = Py.lower b.

(** The opportunity [o] with its urgency replaced by [u]. *)
Definition with_urgency (o : Opportunity.t) (u : UrgencyLevel)
    : Opportunity.t :=
  Opportunity.mk (Opportunity.id o) (Opportunity.title o)
    (Opportunity.organization o) (Opportunity.description o)
    (Opportunity.required_skills o) (Opportunity.location o)
    (Opportunity.impact_area o) u (Opportunity.timeframe o)
    (Opportunity.volunteers_needed o) (Opportunity.resources_required o)
    (Opportunity.created_at o).

(** Two lists with the same items, in any order and multiplicity. *)
Definition same_items (xs ys : list string) : Prop :=
  forall x, In x xs <-> In x ys.

(** ** Sample records *)

Module Examples.

Definition volunteer (id location experience : string) (available : bool)
    (skills : list string) (interests : list ImpactArea) : Volunteer.t :=
  Volunteer.mk id id skills location [("weekends", available)] interests
    experience ["English"] 10%Z "volunteer@example.org" None 0%Z.

Definition opportunity (id location : string) (area : ImpactArea)
    (urgency : UrgencyLevel) (needed : Z) (required : list string)
    : Opportunity.t :=
  Opportunity.mk id id "Health for All Foundation" "" required location area
    urgency [("start", 0%Z); ("end", 86400%Z)] needed [] 0%Z.

(** Four volunteers.  [v_edge] scores exactly [0.4] against a Metro City
    clinic, [v_far] exactly [0.3]; [v_lower] writes its city in lower
    case. *)
Definition v_edge : Volunteer.t :=
  volunteer "vol_edge" "Metro City" "beginner" true ["teaching"] [EDUCATION].

Definition v_strong : Volunteer.t :=
  volunteer "vol_strong" "Metro City" "expert" true ["medical"] [HEALTHCARE].

Definition v_far : Volunteer.t :=
  volunteer "vol_far" "Suburb Town" "intermediate" true ["teaching"]
    [EDUCATION].

Definition v_lower : Volunteer.t :=
  volunteer "vol_lower" "metro city" "expert" true ["medical"] [HEALTHCARE].

Definition clinic (id : string) (needed : Z) : Opportunity.t :=
  opportunity id "Metro City" HEALTHCARE HIGH needed
    ["medical"; "patient_care"].

Definition tutoring : Opportunity.t :=
  opportunity "opp_tutoring" "Suburb Town" EDUCATION MEDIUM 10%Z
    ["teaching"; "youth_mentoring"].

(** Six opportunities for [v_far]: one far away with no shared skill or
    interest, then five that share its location. *)
Definition far_clinic : Opportunity.t := clinic "opp_far" 3%Z.

Definition near (id : string) : Opportunity.t :=
  opportunity id "Suburb Town" HEALTHCARE LOW 2%Z ["medical"].

Definition six_opportunities : list Opportunity.t :=
  [ far_clinic; near "opp_1"; near "opp_2"; near "opp_3"; near "opp_4";
    near "opp_5" ].

(** A completed engagement. *)
Definition outcomes (people hours quality sustainability : Q) : Outcomes.t :=
  Outcomes.mk (Some people) (Some hours) (Some quality) (Some sustainability)
    None.

(** Stand-ins for the two helpers of [allocate_resources]. *)
Definition general_role (v : Volunteer.t) (o : Opportunity.t) : string :=
  "general volunteer".

Definition no_efficiency (o : Opportunity.t) (ms : list MatchResult.t) : Q := 0.

End Examples.

(** * Properties *)

(** ** Numbers, sums and dictionaries *)

Lemma ltb_true (a b : Q) : Py.ltb a b = true <-> a < b.
Proof.
  unfold Py.ltb. rewrite negb_true_iff.
  split; intro H.
  - apply Qnot_le_lt. intro Hle.
    apply Qle_bool_iff in Hle. congruence.
  - destruct (Qle_bool b a) eqn:E; [| reflexivity].
    apply Qle_bool_iff in E. exfalso. apply (Qlt_not_le _ _ H E).
Qed.

Lemma ltb_false (a b : Q) : Py.ltb a b = false <-> b <= a.
Proof.
  unfold Py.ltb. rewrite negb_false_iff. apply Qle_bool_iff.
Qed.

Lemma geb_true (a b : Q) : Py.geb a b = true <-> b <= a.
Proof. unfold Py.geb. apply Qle_bool_iff. Qed.

(** [min] returns one of its arguments, and the smaller one. *)
Lemma min_cases (a b : Q) :
  (b < a /\ Py.min a b = b) \/ (a <= b /\ Py.min a b = a).
Proof.
  unfold Py.min. destruct (Py.ltb b a) eqn:E.
  - left. split; [apply ltb_true; assumption | reflexivity].
  - right. split; [apply ltb_false; assumption | reflexivity].
Qed.

Lemma min_le_r (a b : Q) : Py.min a b <= b.
Proof. destruct (min_cases a b) as [[H ->] | [H ->]]; lra. Qed.

Lemma min_le_l (a b : Q) : Py.min a b <= a.
Proof. destruct (min_cases a b) as [[H ->] | [H ->]]; lra. Qed.

Lemma min_glb (a b c : Q) : c <= a -> c <= b -> c <= Py.min a b.
Proof. intros Ha Hb. destruct (min_cases a b) as [[H ->] | [H ->]]; lra. Qed.

Lemma fold_left_Qplus (xs : list Q) (a : Q) :
  fold_left Qplus xs a == a + fold_left Qplus xs 0.
Proof.
  revert a. induction xs as [| x xs IH]; intro a; simpl.
  - lra.
  - rewrite IH. rewrite (IH (0 + x)). lra.
Qed.

Lemma sum_nil : Py.sum [] == 0.
Proof. reflexivity. Qed.

Lemma sum_cons (x : Q) (xs : list Q) : Py.sum (x :: xs) == x + Py.sum xs.
Proof.
  unfold Py.sum. simpl. rewrite fold_left_Qplus. lra.
Qed.

Section WeightedSums.

Variable f : string -> Q.
Hypothesis f_pos : forall x, 0 < f x.

Lemma sum_map_nonneg (l : list string) : 0 <= Py.sum (map f l).
Proof.
  induction l as [| x l IH]; simpl.
  - rewrite sum_nil. lra.
  - rewrite sum_cons. pose proof (f_pos x). lra.
Qed.

Lemma sum_map_pos (x : string) (l : list string) :
  0 < Py.sum (map f (x :: l)).
Proof.
  simpl. rewrite sum_cons.
  pose proof (f_pos x). pose proof (sum_map_nonneg l). lra.
Qed.


Lemma sum_filter_le (p : string -> bool) (l : list string) :
  Py.sum (map f (filter p l)) <= Py.sum (map f l).
Proof.
  induction l as [| x l IH]; simpl.
  - lra.
  - pose proof (f_pos x) as Hx.
    destruct (p x); simpl; rewrite ?sum_cons; lra.
Qed.

Lemma sum_nodup_le (l : list string) :
  Py.sum (map f (nodup string_dec l)) <= Py.sum (map f l).
Proof.
  induction l as [| x l IH]; simpl.
  - lra.
  - pose proof (f_pos x) as Hx.
    destruct (in_dec string_dec x l); simpl; rewrite ?sum_cons; lra.
Qed.

(** The weight of the matched skills never exceeds the weight of the
    required list. *)
Lemma sum_inter_le (vs rs : list string) :
  Py.sum (map f (Py.set_inter vs rs)) <= Py.sum (map f rs).
Proof.
  unfold Py.set_inter, Py.set.
  eapply Qle_trans; [apply sum_filter_le | apply sum_nodup_le].
Qed.


(** The ratio the skill match returns, whether or not a skill matched. *)
Lemma ratio_bounds (vs : list string) (r : string) (rs : list string) :
  0 <= Py.sum (map f (Py.set_inter vs (r :: rs))) / Py.sum (map f (r :: rs))
  /\ Py.sum (map f (Py.set_inter vs (r :: rs))) / Py.sum (map f (r :: rs)) <= 1.
Proof.
  pose proof (sum_map_pos r rs) as Hpos.
  pose proof (sum_inter_le vs (r :: rs)) as Hle.
  pose proof (sum_map_nonneg (Py.set_inter vs (r :: rs))) as Hnn.
  split.
  - apply Qle_shift_div_l; [assumption | lra].
  - apply Qle_shift_div_r; [assumption | lra].
Qed.


End WeightedSums.

(** A lookup in a table of positive numbers with a positive default is
    positive, whatever the key. *)
Lemma get_pos {K : Type} (eqb : K -> K -> bool) (d : Py.dict K Q) (k : K)
    (default : Q) :
  Forall (fun kv => 0 < snd kv) d -> 0 < default ->
  0 < Py.get eqb d k default.
Proof.
  intros Hd Hdef. induction Hd as [| [k' v] d Hv Hd IH]; simpl.
  - assumption.
  - destruct (eqb k' k); [exact Hv | exact IH].
Qed.

(** ** The skill sub-score *)

Lemma MatchingAgent_weight_pos (s : string) :
  0 < MatchingAgent.weight MatchingAgent.__init__ s.
Proof.
  unfold MatchingAgent.weight. apply get_pos; [| reflexivity].
  repeat constructor.
Qed.


(** Both returns of the non-empty branch are the same ratio: with no
    matched skill the total weight is [0]. *)
Lemma MatchingAgent_skill_match_ratio (self : MatchingAgent.t)
    (vs : list string) (r : string) (rs : list string) :
  MatchingAgent._calculate_skill_match self vs (r :: rs)
  == Py.sum (map (MatchingAgent.weight self) (Py.set_inter vs (r :: rs)))
     / Py.sum (map (MatchingAgent.weight self) (r :: rs)).
Proof.
  unfold MatchingAgent._calculate_skill_match.
  destruct (Py.set_inter vs (r :: rs)) as [| m ms].
  - simpl map at 1. rewrite sum_nil. unfold Qdiv. lra.
  - reflexivity.
Qed.


Lemma MatchingAgent_skill_match_bounds (vs rs : list string) :
  0 <= MatchingAgent._calculate_skill_match MatchingAgent.__init__ vs rs <= 1.
Proof.
  destruct rs as [| r rs].
  - simpl. lra.
  - rewrite MatchingAgent_skill_match_ratio.
    apply ratio_bounds. apply MatchingAgent_weight_pos.
Qed.



(** ** The compatibility score *)

(** A lookup in a table whose entries and default lie in a range stays in
    the range. *)
Lemma get_range {K : Type} (eqb : K -> K -> bool) (d : Py.dict K Q) (k : K)
    (default lo hi : Q) :
  Forall (fun kv => lo <= snd kv <= hi) d -> lo <= default <= hi ->
  lo <= Py.get eqb d k default <= hi.
Proof.
  intros Hd Hdef. induction Hd as [| [k' v] d Hv Hd IH]; simpl.
  - assumption.
  - destruct (eqb k' k); [exact Hv | exact IH].
Qed.

(** The six subscripts of [_calculate_compatibility] hit their entries. *)
Lemma MATCHING_WEIGHTS_keys :
  forallb (Py.contains String.eqb AgentConfig.MATCHING_WEIGHTS)
    ["skills"; "location"; "interests"; "urgency"; "experience";
     "availability"] = true.
Proof. reflexivity. Qed.

Lemma experience_score_range (level : string) :
  3 # 10 <= MatchingAgent._calculate_experience_score level <= 1.
Proof.
  unfold MatchingAgent._calculate_experience_score.
  apply get_range.
  - repeat constructor; simpl; lra.
  - lra.
Qed.

Lemma availability_match_range (a : Py.dict string bool)
    (t : Py.dict string datetime) :
  2 # 10 <= MatchingAgent._calculate_availability_match a t <= 8 # 10.
Proof.
  unfold MatchingAgent._calculate_availability_match.
  destruct (existsb _ _); lra.
Qed.

Lemma location_score_range (v : Volunteer.t) (o : Opportunity.t) :
  3 # 10 <= MatchingAgent.location_score v o <= 1.
Proof.
  unfold MatchingAgent.location_score. destruct (String.eqb _ _); lra.
Qed.

(** Every urgency ordinal times [0.25] reaches the urgency weight, so the
    urgency term is the full weight for all four levels. *)
Lemma urgency_term (u : UrgencyLevel) :
  Py.min (inject_Z (UrgencyLevelM.value u) * 0.25) 0.1 == 0.1.
Proof. destruct u; reflexivity. Qed.

(** With the configured weights the accumulated maximum is [1], and the
    normalised score is the weighted sum of the six sub-scores. *)
Lemma score_of_sum (v : Volunteer.t) (o : Opportunity.t) :
  MatchingAgent.score_of MatchingAgent.__init__ v o
  == MatchingAgent._calculate_skill_match MatchingAgent.__init__
       (Volunteer.skills v) (Opportunity.required_skills o) * 0.4
     + MatchingAgent.location_score v o * 0.2
     + (if existsb (ImpactAreaM.eqb (Opportunity.impact_area o))
             (Volunteer.interests v) then 1.0 else 0.2) * 0.15
     + 0.1
     + MatchingAgent._calculate_experience_score
         (Volunteer.experience_level v) * 0.1
     + MatchingAgent._calculate_availability_match
         (Volunteer.availability v) (Opportunity.timeframe o) * 0.05.
Proof.
  unfold MatchingAgent.score_of, MatchingAgent._calculate_compatibility.
  cbv zeta. cbn [fst].
  change (MatchingAgent.w MatchingAgent.__init__ "skills") with 0.4.
  change (MatchingAgent.w MatchingAgent.__init__ "location") with 0.2.
  change (MatchingAgent.w MatchingAgent.__init__ "interests") with 0.15.
  change (MatchingAgent.w MatchingAgent.__init__ "urgency") with 0.1.
  change (MatchingAgent.w MatchingAgent.__init__ "experience") with 0.1.
  change (MatchingAgent.w MatchingAgent.__init__ "availability") with 0.05.
  change (Py.ltb 0 (0.0 + 0.4 + 0.2 + 0.15 + 0.1 + 0.1 + 0.05)) with true.
  cbv iota. rewrite urgency_term. field.
Qed.

Lemma score_of_range (v : Volunteer.t) (o : Opportunity.t) :
  23 # 100 <= MatchingAgent.score_of MatchingAgent.__init__ v o <= 1.
Proof.
  rewrite score_of_sum.
  pose proof (MatchingAgent_skill_match_bounds (Volunteer.skills v)
                (Opportunity.required_skills o)) as Hs.
  pose proof (location_score_range v o) as Hl.
  pose proof (experience_score_range (Volunteer.experience_level v)) as He.
  pose proof (availability_match_range (Volunteer.availability v)
                (Opportunity.timeframe o)) as Ha.
  destruct (existsb _ _); lra.
Qed.

Lemma confidence_of_def (self : MatchingAgent.t) (v : Volunteer.t)
    (o : Opportunity.t) :
  MatchingAgent.confidence_of self v o
  = Py.min (MatchingAgent.score_of self v o * 1.2) 1.0.
Proof. reflexivity. Qed.

(** C6. For every volunteer and opportunity, the score and the confidence
    that [_calculate_compatibility] returns lie in [[0,1]], and the
    confidence is [min(score * 1.2, 1.0)]. *)
Theorem compatibility_score_confidence_unit_interval (v : Volunteer.t)
    (o : Opportunity.t) :
  let score := fst (fst (MatchingAgent._calculate_compatibility
                           MatchingAgent.__init__ v o)) in
  let confidence := snd (MatchingAgent._calculate_compatibility
                           MatchingAgent.__init__ v o) in
  (0 <= score /\ score <= 1)
  /\ (0 <= confidence /\ confidence <= 1)
  /\ confidence == Py.min (score * 1.2) 1.0.
Proof.
  intros score confidence.
  pose proof (score_of_range v o) as Hs.
  fold (MatchingAgent.score_of MatchingAgent.__init__ v o) in score.
  fold (MatchingAgent.confidence_of MatchingAgent.__init__ v o) in confidence.
  assert (Hc : confidence = Py.min (score * 1.2) 1.0)
    by apply confidence_of_def.
  fold score in Hs.
  split; [split; lra |]. split.
  - rewrite Hc.
    pose proof (min_le_r (score * 1.2) 1.0) as Hr.
    assert (Hl : 0 <= Py.min (score * 1.2) 1.0) by (apply min_glb; lra).
    split; lra.
  - rewrite Hc. reflexivity.
Qed.

(** ** The location sub-score *)

(** C5, as stated, fails: "Metro City" and "metro city" are equal when
    letter case is ignored, yet the location sub-score of the pair is [0.3]
    and not [1.0], in both variants of the matcher. *)
Lemma location_case_counterexample :
  same_ignoring_case (Volunteer.location Examples.v_lower)
    (Opportunity.location (Examples.clinic "opp_001" 15%Z))
  /\ MatchingAgent.location_score Examples.v_lower
       (Examples.clinic "opp_001" 15%Z) == 0.3
  /\ ~ MatchingAgent.location_score Examples.v_lower
         (Examples.clinic "opp_001" 15%Z) == 1.0
  /\ ~ SmartMatchingAgent.location_score Examples.v_lower
         (Examples.clinic "opp_001" 15%Z) == 1.0.
Proof.
  split; [reflexivity |]. split; [reflexivity |].
  split; vm_compute; discriminate.
Qed.

(** C5, amended.  The location sub-score is [1.0] exactly when the two
    location strings are equal character by character (letter case
    included), and [0.3] exactly when they differ. *)
Theorem location_score_exact_equality (v : Volunteer.t) (o : Opportunity.t) :
  (MatchingAgent.location_score v o == 1.0
   <-> Volunteer.location v = Opportunity.location o)
  /\ (MatchingAgent.location_score v o == 0.3
      <-> Volunteer.location v <> Opportunity.location o).
Proof.
  unfold MatchingAgent.location_score.
  destruct (String.eqb_spec (Volunteer.location v) (Opportunity.location o))
    as [Heq | Hne].
  - split; split; intro H.
    + assumption.
    + reflexivity.
    + exfalso. revert H. vm_compute. discriminate.
    + contradiction.
  - split; split; intro H.
    + exfalso. revert H. vm_compute. discriminate.
    + contradiction.
    + assumption.
    + reflexivity.
Qed.

(** ** Impact scoring *)

(** C10. For every opportunity, the area multiplier that
    [ImpactAgent._calculate_impact_score] applies is the default [1.0]: the
    configured table has no entry under the enum member that the lookup
    uses, although it has one under the member's string value. *)
Theorem area_multiplier_always_default (o : Opportunity.t) :
  Py.contains PyKey_eqb (ImpactAgent.impact_multipliers ImpactAgent.__init__)
    (KArea (Opportunity.impact_area o)) = false
  /\ ImpactAgent.area_multiplier ImpactAgent.__init__ o = 1.0
  /\ Py.contains PyKey_eqb
       (ImpactAgent.impact_multipliers ImpactAgent.__init__)
       (KStr (ImpactAreaM.value (Opportunity.impact_area o))) = true.
Proof.
  unfold ImpactAgent.area_multiplier.
  destruct (Opportunity.impact_area o); repeat split; reflexivity.
Qed.

(** C2. The impact score is at most [1.0] for every opportunity and every
    outcomes record, whatever the magnitudes of the inputs (and whatever
    table the agent holds). *)
Theorem impact_score_at_most_one (self : ImpactAgent.t) (o : Opportunity.t)
    (outcomes : Outcomes.t) :
  ImpactAgent._calculate_impact_score self o outcomes <= 1.
Proof.
  unfold ImpactAgent._calculate_impact_score. cbv zeta.
  match goal with
  | |- Py.min ?a ?b <= _ => pose proof (min_le_r a b) as H
  end.
  lra.
Qed.

(** The extreme inputs of the specification: 10,000 people and 1,000
    hours are clamped to exactly [1.0]. *)
Lemma impact_score_extreme_inputs :
  ImpactAgent._calculate_impact_score ImpactAgent.__init__
    (Examples.clinic "opp_001" 15%Z) (Examples.outcomes 10000 1000 1 1)
  == 1.
Proof. reflexivity. Qed.

Lemma min_compat (a a' b b' : Q) :
  a == a' -> b == b' -> Py.min a b == Py.min a' b'.
Proof.
  intros Ha Hb.
  destruct (min_cases a b) as [[H ->] | [H ->]];
    destruct (min_cases a' b') as [[H' ->] | [H' ->]]; lra.
Qed.

Lemma min_below (a b : Q) : a <= b -> Py.min a b = a.
Proof.
  intro H. destruct (min_cases a b) as [[H' _] | [_ E]]; [lra | exact E].
Qed.

(** Where the hours term stays within its cap, the code computes the
    specification's formula. *)
Lemma impact_score_within_cap (self : ImpactAgent.t) (o : Opportunity.t)
    (people hours quality sustainability : Q) :
  hours * quality * 0.05 <= 0.3 ->
  ImpactAgent._calculate_impact_score self o
    (Examples.outcomes people hours quality sustainability)
  == SpecImpact.score (ImpactAgent.area_multiplier self o)
       (AgentUtils.calculate_urgency_multiplier (Opportunity.urgency o))
       people hours quality sustainability.
Proof.
  intro Hcap.
  unfold ImpactAgent._calculate_impact_score, SpecImpact.score,
    SpecImpact.base, Examples.outcomes.
  cbv zeta. simpl Outcomes.get_or.
  rewrite (min_below _ _ Hcap).
  apply min_compat; [ring | reflexivity].
Qed.

(** C1, at the failing input.  With no people impacted, ten hours at quality
    [1.0], sustainability [0.0] and MEDIUM urgency, the code returns [0.5]:
    the hours term enters uncapped.  The specification's formula, and the
    utility [AgentUtils.calculate_impact_score] for the base, give [0.3]. *)
Theorem impact_score_hours_term_uncapped :
  ImpactAgent._calculate_impact_score ImpactAgent.__init__ Examples.tutoring
    (Examples.outcomes 0 10 1 0) == 0.5
  /\ SpecImpact.score
       (ImpactAgent.area_multiplier ImpactAgent.__init__ Examples.tutoring)
       (AgentUtils.calculate_urgency_multiplier
          (Opportunity.urgency Examples.tutoring))
       0 10 1 0 == 0.3
  /\ AgentUtils.calculate_impact_score 0 10 1 == 0.3.
Proof. repeat split. Qed.

(** ** Sorting and slicing *)

Section StableSort.

Variable A : Type.
Variable key : A -> Q.

Let ge (a b : A) : Prop := key b <= key a.
Let has (s : Q) (x : A) : bool := Qeq_bool (key x) s.



Lemma insert_desc_In (x z : A) (l : list A) :
  In z (Py.insert_desc key x l) <-> z = x \/ In z l.
Proof.
  induction l as [| y l IH]; simpl.
  - intuition congruence.
  - destruct (Qle_bool (key y) (key x)); simpl.
    + intuition congruence.
    + rewrite IH. intuition congruence.
Qed.

Lemma sorted_desc_In (z : A) (l : list A) :
  In z (Py.sorted_desc key l) <-> In z l.
Proof.
  induction l as [| x l IH]; simpl; [tauto |].
  rewrite insert_desc_In, IH. intuition congruence.
Qed.

Lemma insert_desc_sorted (x : A) (l : list A) :
  StronglySorted ge l -> StronglySorted ge (Py.insert_desc key x l).
Proof.
  induction 1 as [| y l Hl IH Hy]; simpl.
  - constructor; constructor.
  - destruct (Qle_bool (key y) (key x)) eqn:E.
    + apply Qle_bool_iff in E.
      constructor; [constructor; assumption |].
      constructor; [exact E |].
      rewrite Forall_forall in Hy |- *. intros z Hz.
      specialize (Hy z Hz). unfold ge in *. lra.
    + constructor; [exact IH |].
      rewrite Forall_forall in Hy |- *. intros z Hz.
      apply insert_desc_In in Hz as [-> | Hz]; [| exact (Hy z Hz)].
      unfold ge. destruct (Qlt_le_dec (key y) (key x)) as [Hlt | Hle].
      * apply Qlt_le_weak in Hlt. apply Qle_bool_iff in Hlt. congruence.
      * exact Hle.
Qed.

(** The result of the sort is descending. *)
Lemma sorted_desc_sorted (l : list A) : StronglySorted ge (Py.sorted_desc key l).
Proof.
  induction l as [| x l IH]; simpl; [constructor |].
  apply insert_desc_sorted. exact IH.
Qed.

(** Inserting [x] puts it in front of the items with its own key. *)
Lemma insert_desc_filter (s : Q) (x : A) (l : list A) :
  filter (has s) (Py.insert_desc key x l) = filter (has s) (x :: l).
Proof.
  induction l as [| y l IH]; [reflexivity |].
  simpl Py.insert_desc.
  destruct (Qle_bool (key y) (key x)) eqn:E; [reflexivity |].
  simpl filter at 1. rewrite IH. simpl.
  destruct (has s x) eqn:Ex; [| reflexivity].
  destruct (has s y) eqn:Ey; [| reflexivity].
  exfalso. unfold has in Ex, Ey.
  apply Qeq_bool_iff in Ex. apply Qeq_bool_iff in Ey.
  assert (Hle : key y <= key x) by lra.
  apply Qle_bool_iff in Hle. congruence.
Qed.

(** The sort is stable: among the items of one key, the order is the
    order of the input. *)
Lemma sorted_desc_filter (s : Q) (l : list A) :
  filter (has s) (Py.sorted_desc key l) = filter (has s) l.
Proof.
  induction l as [| x l IH]; [reflexivity |].
  simpl Py.sorted_desc. rewrite insert_desc_filter.
  simpl. now rewrite IH.
Qed.

Lemma firstn_In (z : A) (n : nat) (l : list A) :
  In z (firstn n l) -> In z l.
Proof.
  revert n. induction l as [| y l IH]; intros n Hz.
  - rewrite firstn_nil in Hz. exact Hz.
  - destruct n as [| n]; simpl in Hz; [contradiction |].
    destruct Hz as [-> | Hz]; [left; reflexivity | right; eauto].
Qed.

Lemma firstn_sorted (n : nat) (l : list A) :
  StronglySorted ge l -> StronglySorted ge (firstn n l).
Proof.
  intro H. revert n. induction H as [| y l Hl IH Hy]; intro n.
  - rewrite firstn_nil. constructor.
  - destruct n as [| n]; simpl; [constructor |].
    constructor; [apply IH |].
    rewrite Forall_forall in Hy |- *. intros z Hz.
    apply Hy. eapply firstn_In; eassumption.
Qed.

(** A slice [xs[:n]] is a prefix of [xs]. *)
Lemma slice_to_prefix (l : list A) (n : Z) :
  exists k rest, Py.slice_to l n = firstn k l /\ l = firstn k l ++ rest.
Proof.
  unfold Py.slice_to. destruct (0 <=? n)%Z.
  - exists (Z.to_nat n), (skipn (Z.to_nat n) l).
    split; [reflexivity | symmetry; apply firstn_skipn].
  - exists (List.length l - Z.to_nat (- n))%nat,
      (skipn (List.length l - Z.to_nat (- n)) l).
    split; [reflexivity | symmetry; apply firstn_skipn].
Qed.

Lemma slice_to_sorted (l : list A) (n : Z) :
  StronglySorted ge l -> StronglySorted ge (Py.slice_to l n).
Proof.
  intro H. destruct (slice_to_prefix l n) as [k [rest [-> _]]].
  apply firstn_sorted. exact H.
Qed.

(** For a limit that is not negative the slice holds at most that many
    items. *)
Lemma slice_to_length (l : list A) (n : Z) :
  (0 <= n)%Z -> (Z.of_nat (List.length (Py.slice_to l n)) <= n)%Z.
Proof.
  intro Hn. unfold Py.slice_to.
  destruct (Z.leb_spec 0 n) as [_ | Hneg]; [| lia].
  pose proof (firstn_le_length (Z.to_nat n) l). lia.
Qed.


Lemma slice_to_filter (p : A -> bool) (l : list A) (n : Z) :
  exists rest, filter p l = filter p (Py.slice_to l n) ++ rest.
Proof.
  destruct (slice_to_prefix l n) as [k [rest [-> Hl]]].
  exists (filter p rest). rewrite <- filter_app. now rewrite <- Hl.
Qed.

End StableSort.

(** ** Ranking *)

Lemma geb_compat (a s t : Q) :
  Qeq_bool a s = true -> Py.geb a t = Py.geb s t.
Proof.
  intro H. apply Qeq_bool_iff in H. unfold Py.geb. now rewrite H.
Qed.

(** After the loop of [find_matches], the results of one score are those
    of the whole input when the score passes the threshold, and none
    otherwise. *)
Lemma find_matches_loop_with_score (self : MatchingAgent.t) (v : Volunteer.t)
    (opps : list Opportunity.t) (s : Q) :
  with_score s (MatchingAgent.find_matches_loop self v opps)
  = if Py.geb s AgentConfig.MIN_MATCH_SCORE
    then with_score s (map (MatchingAgent.result self v) opps)
    else [].
Proof.
  unfold with_score.
  induction opps as [| o opps IH]; simpl.
  - now destruct (Py.geb s AgentConfig.MIN_MATCH_SCORE).
  - destruct (Qeq_bool (MatchingAgent.score_of self v o) s) eqn:Es.
    + rewrite (geb_compat _ _ _ Es).
      destruct (Py.geb s AgentConfig.MIN_MATCH_SCORE) eqn:Eg; simpl;
        rewrite ?Es; rewrite IH; reflexivity.
    + destruct (Py.geb (MatchingAgent.score_of self v o)
                  AgentConfig.MIN_MATCH_SCORE); simpl;
        rewrite ?Es; exact IH.
Qed.

Lemma find_volunteers_loop_with_score (self : MatchingAgent.t)
    (o : Opportunity.t) (vols : list Volunteer.t) (s : Q) :
  with_score s (MatchingAgent.find_volunteers_loop self o vols)
  = if Py.geb s (AgentConfig.MIN_MATCH_SCORE + 0.1)
    then with_score s (map (fun v => MatchingAgent.result self v o) vols)
    else [].
Proof.
  unfold with_score.
  induction vols as [| v vols IH]; simpl.
  - now destruct (Py.geb s (AgentConfig.MIN_MATCH_SCORE + 0.1)).
  - destruct (Qeq_bool (MatchingAgent.score_of self v o) s) eqn:Es.
    + rewrite (geb_compat _ _ _ Es).
      destruct (Py.geb s (AgentConfig.MIN_MATCH_SCORE + 0.1)) eqn:Eg; simpl;
        rewrite ?Es; rewrite IH; reflexivity.
    + destruct (Py.geb (MatchingAgent.score_of self v o)
                  (AgentConfig.MIN_MATCH_SCORE + 0.1)); simpl;
        rewrite ?Es; exact IH.
Qed.

(** Sorting and slicing a filtered list keeps the input order among equal
    scores. *)
Lemma ranked_keeps_input_order (input loop : list MatchResult.t) (n : Z)
    (t : Q) :
  (forall s, with_score s loop
             = if Py.geb s t then with_score s input else []) ->
  keeps_input_order input
    (Py.slice_to (Py.sorted_desc MatchResult.match_score loop) n).
Proof.
  intros Hloop s. unfold with_score in *.
  destruct (slice_to_filter _
              (fun m => Qeq_bool (MatchResult.match_score m) s)
              (Py.sorted_desc MatchResult.match_score loop) n)
    as [rest Hrest].
  rewrite sorted_desc_filter in Hrest. rewrite Hloop in Hrest.
  destruct (Py.geb s t).
  - exists rest. exact Hrest.
  - symmetry in Hrest. apply app_eq_nil in Hrest as [-> _].
    eexists. reflexivity.
Qed.

(** C4. [find_matches] returns at most 5 results, in descending order of
    score; [find_volunteers] returns at most [volunteers_needed] results
    (for a number needed that is not negative), in descending order; and in
    both, results of equal score stand in the order of their inputs. *)
Theorem ranking_bounded_sorted_stable (self : MatchingAgent.t)
    (v : Volunteer.t) (opps : list Opportunity.t)
    (o : Opportunity.t) (vols : list Volunteer.t) :
  (0 <= Opportunity.volunteers_needed o)%Z ->
  ((List.length (MatchingAgent.find_matches self v opps) <= 5)%nat
   /\ sorted_descending (MatchingAgent.find_matches self v opps)
   /\ keeps_input_order (map (MatchingAgent.result self v) opps)
        (MatchingAgent.find_matches self v opps))
  /\
  ((Z.of_nat (List.length (MatchingAgent.find_volunteers self o vols))
    <= Opportunity.volunteers_needed o)%Z
   /\ sorted_descending (MatchingAgent.find_volunteers self o vols)
   /\ keeps_input_order (map (fun v' => MatchingAgent.result self v' o) vols)
        (MatchingAgent.find_volunteers self o vols)).
Proof.
  intro Hneeded.
  unfold MatchingAgent.find_matches, MatchingAgent.find_volunteers,
    sorted_descending.
  cbv zeta. repeat split.
  - pose proof (slice_to_length _
                  (Py.sorted_desc MatchResult.match_score
                     (MatchingAgent.find_matches_loop self v opps))
                  AgentConfig.MAX_RECOMMENDATIONS) as H.
    unfold AgentConfig.MAX_RECOMMENDATIONS in *. lia.
  - apply slice_to_sorted, sorted_desc_sorted.
  - eapply ranked_keeps_input_order.
    apply find_matches_loop_with_score.
  - apply slice_to_length. exact Hneeded.
  - apply slice_to_sorted, sorted_desc_sorted.
  - eapply ranked_keeps_input_order.
    intro s. apply find_volunteers_loop_with_score.
Qed.

Lemma ranking_bounded_sorted_stable_witness :
  (0 <= Opportunity.volunteers_needed (Examples.clinic "opp_001" 1%Z))%Z
  /\
  ((List.length (MatchingAgent.find_matches MatchingAgent.__init__
                   Examples.v_far Examples.six_opportunities) <= 5)%nat
   /\ sorted_descending (MatchingAgent.find_matches MatchingAgent.__init__
                           Examples.v_far Examples.six_opportunities)
   /\ keeps_input_order
        (map (MatchingAgent.result MatchingAgent.__init__ Examples.v_far)
           Examples.six_opportunities)
        (MatchingAgent.find_matches MatchingAgent.__init__ Examples.v_far
           Examples.six_opportunities))
  /\
  ((Z.of_nat
      (List.length
         (MatchingAgent.find_volunteers MatchingAgent.__init__
            (Examples.clinic "opp_001" 1%Z)
            [Examples.v_edge; Examples.v_strong]))
    <= Opportunity.volunteers_needed (Examples.clinic "opp_001" 1%Z))%Z
   /\ sorted_descending
        (MatchingAgent.find_volunteers MatchingAgent.__init__
           (Examples.clinic "opp_001" 1%Z)
           [Examples.v_edge; Examples.v_strong])
   /\ keeps_input_order
        (map (fun v' => MatchingAgent.result MatchingAgent.__init__ v'
                          (Examples.clinic "opp_001" 1%Z))
           [Examples.v_edge; Examples.v_strong])
        (MatchingAgent.find_volunteers MatchingAgent.__init__
           (Examples.clinic "opp_001" 1%Z)
           [Examples.v_edge; Examples.v_strong])).
Proof.
  split.
  - simpl. lia.
  - apply (ranking_bounded_sorted_stable MatchingAgent.__init__
             Examples.v_far Examples.six_opportunities
             (Examples.clinic "opp_001" 1%Z)
             [Examples.v_edge; Examples.v_strong]).
    simpl. lia.
Defined.

(** The ranking of the six sample opportunities: the five that tie at
    [0.44] come out in input order, and the one at [0.3] is cut. *)
Lemma find_matches_sample :
  map (fun m => Opportunity.id (MatchResult.opportunity m))
    (MatchingAgent.find_matches MatchingAgent.__init__ Examples.v_far
       Examples.six_opportunities)
  = ["opp_1"; "opp_2"; "opp_3"; "opp_4"; "opp_5"]
  /\ map (fun m => Qred (MatchResult.match_score m))
       (MatchingAgent.find_matches MatchingAgent.__init__ Examples.v_far
          Examples.six_opportunities)
     = [11 # 25; 11 # 25; 11 # 25; 11 # 25; 11 # 25].
Proof. split; vm_compute; reflexivity. Qed.

(** ** The filtering thresholds *)


Lemma find_matches_loop_In (self : MatchingAgent.t) (v : Volunteer.t)
    (opps : list Opportunity.t) (o : Opportunity.t) :
  In o opps ->
  Py.geb (MatchingAgent.score_of self v o) AgentConfig.MIN_MATCH_SCORE = true ->
  In (MatchingAgent.result self v o)
    (MatchingAgent.find_matches_loop self v opps).
Proof.
  intros Hin Hge. induction opps as [| o' opps IH]; [contradiction |].
  cbn [MatchingAgent.find_matches_loop].
  destruct Hin as [-> | Hin].
  - rewrite Hge. left. reflexivity.
  - destruct (Py.geb (MatchingAgent.score_of self v o') _);
      [right |]; apply IH; exact Hin.
Qed.

Lemma find_volunteers_loop_In (self : MatchingAgent.t) (o : Opportunity.t)
    (vols : list Volunteer.t) (v : Volunteer.t) :
  In v vols ->
  Py.geb (MatchingAgent.score_of self v o) (AgentConfig.MIN_MATCH_SCORE + 0.1)
  = true ->
  In (MatchingAgent.result self v o)
    (MatchingAgent.find_volunteers_loop self o vols).
Proof.
  intros Hin Hge. induction vols as [| v' vols IH]; [contradiction |].
  cbn [MatchingAgent.find_volunteers_loop].
  destruct Hin as [-> | Hin].
  - rewrite Hge. left. reflexivity.
  - destruct (Py.geb (MatchingAgent.score_of self v' o) _);
      [right |]; apply IH; exact Hin.
Qed.




(** ** Resource allocation *)




(** The allocation of the two sample candidates to a clinic that needs
    one volunteer: the better candidate is assigned, and the expected
    impact is [3 * 0.25 * 0.79 * 1.5]. *)
Lemma allocate_resources_sample :
  let a :=
    ResourceOptimizationAgent.allocate_resources Examples.general_role
      Examples.no_efficiency ResourceOptimizationAgent.__init__
      (Examples.clinic "opp_001" 1%Z)
      [ MatchingAgent.result MatchingAgent.__init__ Examples.v_edge
          (Examples.clinic "opp_001" 1%Z);
        MatchingAgent.result MatchingAgent.__init__ Examples.v_strong
          (Examples.clinic "opp_001" 1%Z) ] in
  map Assignment.volunteer_id (Allocation.assigned_volunteers a)
  = ["vol_strong"]
  /\ Allocation.expected_impact a == 3 * 0.25 * 0.79 * 1.5.
Proof. split; vm_compute; reflexivity. Qed.

(** ** Recording completions *)



(** * Further properties of the matching agent *)

(** The score is never below [0.23], and the confidence is never below
    the score. *)
Theorem confidence_at_least_score (v : Volunteer.t) (o : Opportunity.t) :
  23 # 100 <= MatchingAgent.score_of MatchingAgent.__init__ v o
  /\ MatchingAgent.score_of MatchingAgent.__init__ v o
     <= MatchingAgent.confidence_of MatchingAgent.__init__ v o.
Proof.
  pose proof (score_of_range v o) as Hs.
  split; [apply Hs |].
  rewrite confidence_of_def. apply min_glb; lra.
Qed.

(** The urgency of the opportunity has no influence on the score or on the
    confidence: every level contributes the full urgency weight. *)
Theorem score_independent_of_urgency (v : Volunteer.t) (o : Opportunity.t)
    (u : UrgencyLevel) :
  MatchingAgent.score_of MatchingAgent.__init__ v (with_urgency o u)
  == MatchingAgent.score_of MatchingAgent.__init__ v o
  /\ MatchingAgent.confidence_of MatchingAgent.__init__ v (with_urgency o u)
     == MatchingAgent.confidence_of MatchingAgent.__init__ v o.
Proof.
  assert (Hs : MatchingAgent.score_of MatchingAgent.__init__ v
                 (with_urgency o u)
               == MatchingAgent.score_of MatchingAgent.__init__ v o).
  { rewrite !score_of_sum. reflexivity. }
  split; [exact Hs |].
  rewrite !confidence_of_def. apply min_compat; [| reflexivity].
  rewrite Hs. reflexivity.
Qed.

(** What the loops keep comes from the input and passes the threshold. *)
Lemma find_matches_loop_sound (self : MatchingAgent.t) (v : Volunteer.t)
    (opps : list Opportunity.t) (m : MatchResult.t) :
  In m (MatchingAgent.find_matches_loop self v opps) ->
  exists o, In o opps /\ m = MatchingAgent.result self v o
            /\ 0.3 <= MatchResult.match_score m.
Proof.
  induction opps as [| o opps IH]; cbn [MatchingAgent.find_matches_loop];
    [contradiction |].
  destruct (Py.geb (MatchingAgent.score_of self v o) _) eqn:E; intro Hin.
  - destruct Hin as [<- | Hin].
    + exists o. split; [left; reflexivity |]. split; [reflexivity |].
      apply geb_true in E. exact E.
    + destruct (IH Hin) as [o' [Ho' H]]. exists o'. split; [right |]; assumption.
  - destruct (IH Hin) as [o' [Ho' H]]. exists o'. split; [right |]; assumption.
Qed.

Lemma find_volunteers_loop_sound (self : MatchingAgent.t) (o : Opportunity.t)
    (vols : list Volunteer.t) (m : MatchResult.t) :
  In m (MatchingAgent.find_volunteers_loop self o vols) ->
  exists v, In v vols /\ m = MatchingAgent.result self v o
            /\ 0.4 <= MatchResult.match_score m.
Proof.
  induction vols as [| v vols IH]; cbn [MatchingAgent.find_volunteers_loop];
    [contradiction |].
  destruct (Py.geb (MatchingAgent.score_of self v o) _) eqn:E; intro Hin.
  - destruct Hin as [<- | Hin].
    + exists v. split; [left; reflexivity |]. split; [reflexivity |].
      apply geb_true in E. unfold AgentConfig.MIN_MATCH_SCORE in E.
      cbn [MatchingAgent.result MatchResult.match_score]. lra.
    + destruct (IH Hin) as [v' [Hv' H]]. exists v'. split; [right |]; assumption.
  - destruct (IH Hin) as [v' [Hv' H]]. exists v'. split; [right |]; assumption.
Qed.

Lemma slice_to_In (A : Type) (z : A) (l : list A) (n : Z) :
  In z (Py.slice_to l n) -> In z l.
Proof.
  destruct (slice_to_prefix _ l n) as [k [rest [-> _]]]. apply firstn_In.
Qed.

(** Every result that [find_matches] returns is the result of the given
    volunteer with one of the given opportunities and scores at least
    [0.3]; every result that [find_volunteers] returns is the result of one
    of the given volunteers with the given opportunity and scores at least
    [0.4]. *)
Theorem ranking_results_sound (self : MatchingAgent.t) (v : Volunteer.t)
    (opps : list Opportunity.t) (o : Opportunity.t)
    (vols : list Volunteer.t) :
  Forall (fun m => exists o', In o' opps
                     /\ m = MatchingAgent.result self v o'
                     /\ 0.3 <= MatchResult.match_score m)
    (MatchingAgent.find_matches self v opps)
  /\
  Forall (fun m => exists v', In v' vols
                     /\ m = MatchingAgent.result self v' o
                     /\ 0.4 <= MatchResult.match_score m)
    (MatchingAgent.find_volunteers self o vols).
Proof.
  split; apply Forall_forall; intros m Hin.
  - apply slice_to_In, sorted_desc_In in Hin.
    apply find_matches_loop_sound. exact Hin.
  - apply slice_to_In, sorted_desc_In in Hin.
    apply find_volunteers_loop_sound. exact Hin.
Qed.

Section BestKept.

Variable A : Type.
Variable key : A -> Q.

Lemma sorted_app_le (l1 l2 : list A) :
  StronglySorted (fun a b => key b <= key a) (l1 ++ l2) ->
  forall x y, In x l1 -> In y l2 -> key y <= key x.
Proof.
  induction l1 as [| a l1 IH]; intros Hs x y Hx Hy; [contradiction |].
  simpl in Hs. apply StronglySorted_inv in Hs as [Hs Ha].
  destruct Hx as [<- | Hx].
  - rewrite Forall_forall in Ha. apply Ha. apply in_or_app. right. exact Hy.
  - exact (IH Hs x y Hx Hy).
Qed.

(** What a slice of a ranking leaves out scores no more than what it
    keeps. *)
Lemma slice_keeps_best (l : list A) (n : Z) (x y : A) :
  In x (Py.slice_to (Py.sorted_desc key l) n) ->
  In y l ->
  ~ In y (Py.slice_to (Py.sorted_desc key l) n) ->
  key y <= key x.
Proof.
  intros Hx Hy Hny.
  destruct (slice_to_prefix _ (Py.sorted_desc key l) n)
    as [k [rest [Hk Hl]]].
  rewrite Hk in Hx, Hny.
  pose proof (sorted_desc_sorted _ key l) as Hs. rewrite Hl in Hs.
  apply (sorted_app_le _ _ Hs x y Hx).
  apply (sorted_desc_In _ key) in Hy. rewrite Hl in Hy.
  apply in_app_or in Hy as [Hy | Hy]; [contradiction | exact Hy].
Qed.

Lemma insert_desc_perm (x : A) (l : list A) :
  Permutation (Py.insert_desc key x l) (x :: l).
Proof.
  induction l as [| y l IH]; simpl; [reflexivity |].
  destruct (Qle_bool (key y) (key x)); [reflexivity |].
  rewrite IH. apply perm_swap.
Qed.

Lemma sorted_desc_perm (l : list A) : Permutation (Py.sorted_desc key l) l.
Proof.
  induction l as [| x l IH]; simpl; [reflexivity |].
  rewrite insert_desc_perm. now rewrite IH.
Qed.

End BestKept.

(** An opportunity that passes the threshold but is cut from the
    recommendations scores no more than any recommended one. *)
Theorem find_matches_keeps_best (self : MatchingAgent.t) (v : Volunteer.t)
    (opps : list Opportunity.t) (m : MatchResult.t) (o : Opportunity.t) :
  In m (MatchingAgent.find_matches self v opps) ->
  In o opps ->
  0.3 <= MatchingAgent.score_of self v o ->
  ~ In (MatchingAgent.result self v o) (MatchingAgent.find_matches self v opps) ->
  MatchingAgent.score_of self v o <= MatchResult.match_score m.
Proof.
  intros Hm Ho Hpass Hout.
  unfold MatchingAgent.find_matches in *. cbv zeta in *.
  apply (slice_keeps_best _ MatchResult.match_score _ _ m
           (MatchingAgent.result self v o) Hm); [| exact Hout].
  apply find_matches_loop_In; [exact Ho |]. apply geb_true. exact Hpass.
Qed.

Lemma find_matches_keeps_best_witness :
  MatchingAgent.score_of MatchingAgent.__init__ Examples.v_far
    Examples.far_clinic
  <= MatchResult.match_score
       (MatchingAgent.result MatchingAgent.__init__ Examples.v_far
          (Examples.near "opp_1")).
Proof.
  apply (find_matches_keeps_best MatchingAgent.__init__ Examples.v_far
           Examples.six_opportunities
           (MatchingAgent.result MatchingAgent.__init__ Examples.v_far
              (Examples.near "opp_1"))
           Examples.far_clinic).
  - vm_compute. left. reflexivity.
  - simpl. tauto.
  - vm_compute. discriminate.
  - intro H. vm_compute in H.
    repeat (destruct H as [H | H]; [discriminate H |]). exact H.
Defined.

(** A suitable volunteer who is left out of the selection scores no more
    than any selected one. *)
Theorem find_volunteers_keeps_best (self : MatchingAgent.t)
    (o : Opportunity.t) (vols : list Volunteer.t) (m : MatchResult.t)
    (v : Volunteer.t) :
  In m (MatchingAgent.find_volunteers self o vols) ->
  In v vols ->
  0.4 <= MatchingAgent.score_of self v o ->
  ~ In (MatchingAgent.result self v o)
      (MatchingAgent.find_volunteers self o vols) ->
  MatchingAgent.score_of self v o <= MatchResult.match_score m.
Proof.
  intros Hm Hv Hpass Hout.
  unfold MatchingAgent.find_volunteers in *. cbv zeta in *.
  apply (slice_keeps_best _ MatchResult.match_score _ _ m
           (MatchingAgent.result self v o) Hm); [| exact Hout].
  apply find_volunteers_loop_In; [exact Hv |]. apply geb_true.
  unfold AgentConfig.MIN_MATCH_SCORE. lra.
Qed.

Lemma find_volunteers_keeps_best_witness :
  MatchingAgent.score_of MatchingAgent.__init__ Examples.v_edge
    (Examples.clinic "opp_001" 1%Z)
  <= MatchResult.match_score
       (MatchingAgent.result MatchingAgent.__init__ Examples.v_strong
          (Examples.clinic "opp_001" 1%Z)).
Proof.
  apply (find_volunteers_keeps_best MatchingAgent.__init__
           (Examples.clinic "opp_001" 1%Z)
           [Examples.v_edge; Examples.v_strong]
           (MatchingAgent.result MatchingAgent.__init__ Examples.v_strong
              (Examples.clinic "opp_001" 1%Z))
           Examples.v_edge).
  - vm_compute. left. reflexivity.
  - simpl. tauto.
  - vm_compute. discriminate.
  - intro H. vm_compute in H.
    repeat (destruct H as [H | H]; [discriminate H |]). exact H.
Defined.

(** A volunteer whose location string equals the opportunity's, or whose
    interests include its impact area, scores at least [0.35] and so always
    passes the filter of [find_matches]. *)
Theorem local_or_interested_passes_filter (v : Volunteer.t)
    (o : Opportunity.t) (opps : list Opportunity.t) :
  In o opps ->
  Volunteer.location v = Opportunity.location o
  \/ In (Opportunity.impact_area o) (Volunteer.interests v) ->
  35 # 100 <= MatchingAgent.score_of MatchingAgent.__init__ v o
  /\ In (MatchingAgent.result MatchingAgent.__init__ v o)
       (MatchingAgent.find_matches_loop MatchingAgent.__init__ v opps).
Proof.
  intros Ho Hcase.
  assert (Hs : 35 # 100 <= MatchingAgent.score_of MatchingAgent.__init__ v o).
  { rewrite score_of_sum.
    pose proof (MatchingAgent_skill_match_bounds (Volunteer.skills v)
                  (Opportunity.required_skills o)) as Hsk.
    pose proof (location_score_range v o) as Hl.
    pose proof (experience_score_range (Volunteer.experience_level v)) as He.
    pose proof (availability_match_range (Volunteer.availability v)
                  (Opportunity.timeframe o)) as Ha.
    destruct Hcase as [Hloc | Hint].
    - assert (Hl1 : MatchingAgent.location_score v o == 1).
      { unfold MatchingAgent.location_score. rewrite Hloc, String.eqb_refl.
        reflexivity. }
      destruct (existsb _ _); lra.
    - assert (Hi : existsb (ImpactAreaM.eqb (Opportunity.impact_area o))
                     (Volunteer.interests v) = true).
      { apply existsb_exists. exists (Opportunity.impact_area o).
        split; [exact Hint |]. now destruct (Opportunity.impact_area o). }
      rewrite Hi. lra. }
  split; [exact Hs |].
  apply find_matches_loop_In; [exact Ho |].
  apply geb_true. unfold AgentConfig.MIN_MATCH_SCORE. lra.
Qed.

Lemma local_or_interested_passes_filter_witness :
  35 # 100 <= MatchingAgent.score_of MatchingAgent.__init__ Examples.v_far
                Examples.tutoring
  /\ In (MatchingAgent.result MatchingAgent.__init__ Examples.v_far
           Examples.tutoring)
       (MatchingAgent.find_matches_loop MatchingAgent.__init__ Examples.v_far
          [Examples.far_clinic; Examples.tutoring]).
Proof.
  apply (local_or_interested_passes_filter Examples.v_far Examples.tutoring
           [Examples.far_clinic; Examples.tutoring]).
  - simpl. tauto.
  - left. reflexivity.
Defined.

(** The reasoning list names a factor exactly when the factor holds:
    the skill line for a sub-score above [0.6], the location line for equal
    location strings, the interest line for an impact area among the
    interests, the urgency line for HIGH and CRITICAL. *)
Theorem reasoning_lines (self : MatchingAgent.t) (v : Volunteer.t)
    (o : Opportunity.t) :
  let reasoning := snd (fst (MatchingAgent._calculate_compatibility self v o)) in
  (In "Strong skill alignment" reasoning
   <-> 0.6 < MatchingAgent._calculate_skill_match self (Volunteer.skills v)
               (Opportunity.required_skills o))
  /\ (In "Perfect location match" reasoning
      <-> Volunteer.location v = Opportunity.location o)
  /\ (In "Matches interests" reasoning
      <-> In (Opportunity.impact_area o) (Volunteer.interests v))
  /\ (In "High urgency need" reasoning
      <-> (Opportunity.urgency o = HIGH \/ Opportunity.urgency o = CRITICAL)).
Proof.
  unfold MatchingAgent._calculate_compatibility. cbv zeta. cbn [fst snd].
  assert (Hint : existsb (ImpactAreaM.eqb (Opportunity.impact_area o))
                   (Volunteer.interests v) = true
                 <-> In (Opportunity.impact_area o) (Volunteer.interests v)).
  { rewrite existsb_exists. split.
    - intros [a [Ha Heq]].
      replace (Opportunity.impact_area o) with a; [exact Ha |].
      destruct (Opportunity.impact_area o), a; simpl in Heq;
        congruence.
    - intro H. exists (Opportunity.impact_area o). split; [exact H |].
      now destruct (Opportunity.impact_area o). }
  rewrite <- Hint. rewrite <- ltb_true.
  unfold MatchingAgent.location_score.
  destruct (Py.ltb 0.6 _);
    destruct (String.eqb_spec (Volunteer.location v) (Opportunity.location o));
    destruct (existsb _ _);
    destruct (Opportunity.urgency o);
    simpl;
    repeat split; intros; try reflexivity; try assumption;
    repeat match goal with
           | H : _ \/ _ |- _ => destruct H
           | H : False |- _ => contradiction
           end;
    try discriminate; try contradiction; try congruence; auto.
Qed.

(** ** Further properties of the skill sub-score *)

Lemma existsb_eqb_In (y : string) (xs : list string) :
  existsb (String.eqb y) xs = true <-> In y xs.
Proof.
  rewrite existsb_exists. split.
  - intros [x [Hx Heq]]. apply String.eqb_eq in Heq. now subst.
  - intro H. exists y. split; [exact H | apply String.eqb_refl].
Qed.

Lemma set_inter_In (xs ys : list string) (y : string) :
  In y (Py.set_inter xs ys) <-> In y ys /\ In y xs.
Proof.
  unfold Py.set_inter, Py.set.
  rewrite filter_In, nodup_In, existsb_eqb_In. tauto.
Qed.




Lemma filter_all (A : Type) (p : A -> bool) (l : list A) :
  (forall x, In x l -> p x = true) -> filter p l = l.
Proof.
  induction l as [| x l IH]; intro H; simpl; [reflexivity |].
  rewrite (H x (or_introl eq_refl)). f_equal. apply IH.
  intros y Hy. apply H. right. exact Hy.
Qed.




(** For a non-empty required list, the sub-score is [0] exactly when the
    volunteer has none of the required skills. *)
Theorem skill_match_zero_iff_no_overlap (vs required : list string) :
  required <> [] ->
  (MatchingAgent._calculate_skill_match MatchingAgent.__init__ vs required
   == 0
   <-> forall s, In s required -> ~ In s vs).
Proof.
  intro Hne. destruct required as [| r rs]; [congruence |].
  unfold MatchingAgent._calculate_skill_match.
  destruct (Py.set_inter vs (r :: rs)) as [| m ms] eqn:E.
  - split; [| reflexivity].
    intros _ s Hs Hv.
    assert (Hin : In s (Py.set_inter vs (r :: rs)))
      by (apply set_inter_In; split; assumption).
    rewrite E in Hin. exact Hin.
  - split.
    + intro H0. exfalso.
      pose proof (sum_map_pos _ MatchingAgent_weight_pos m ms) as Hm.
      pose proof (sum_map_pos _ MatchingAgent_weight_pos r rs) as Hr.
      assert (Hq : 0 < Py.sum (map (MatchingAgent.weight MatchingAgent.__init__)
                                 (m :: ms))
                       / Py.sum (map (MatchingAgent.weight
                                        MatchingAgent.__init__) (r :: rs))).
      { apply Qlt_shift_div_l; [exact Hr | lra]. }
      cbv zeta in H0. lra.
    + intro Hnone. exfalso.
      assert (Hin : In m (Py.set_inter vs (r :: rs)))
        by (rewrite E; left; reflexivity).
      apply set_inter_In in Hin as [Hreq Hv]. exact (Hnone m Hreq Hv).
Qed.

Lemma skill_match_zero_iff_no_overlap_witness :
  MatchingAgent._calculate_skill_match MatchingAgent.__init__
    ["teaching"] ["medical"; "patient_care"] == 0
  <-> forall s, In s ["medical"; "patient_care"] -> ~ In s ["teaching"].
Proof.
  apply (skill_match_zero_iff_no_overlap ["teaching"]
           ["medical"; "patient_care"]).
  discriminate.
Defined.

Lemma get_absent {K V : Type} (eqb : K -> K -> bool) (d : Py.dict K V)
    (k : K) (default : V) :
  Py.contains eqb d k = false -> Py.get eqb d k default = default.
Proof.
  unfold Py.contains. induction d as [| [k' v] d IH]; simpl; [reflexivity |].
  destruct (eqb k' k); simpl; [discriminate | exact IH].
Qed.

Lemma len_cons (A : Type) (x : A) (l : list A) :
  Py.len (x :: l) == 1 + Py.len l.
Proof.
  unfold Py.len. cbn [List.length]. rewrite Nat2Z.inj_succ.
  unfold Z.succ. rewrite inject_Z_plus. change (inject_Z 1) with 1. ring.
Qed.

Lemma len_nonneg (A : Type) (l : list A) : 0 <= Py.len l.
Proof.
  unfold Py.len. change 0 with (inject_Z 0). rewrite <- Zle_Qle. lia.
Qed.

Lemma sum_ones (f : string -> Q) (l : list string) :
  (forall x, In x l -> f x == 1) -> Py.sum (map f l) == Py.len l.
Proof.
  induction l as [| x l IH]; intro H.
  - reflexivity.
  - simpl map. rewrite sum_cons, len_cons.
    rewrite (H x (or_introl eq_refl)). rewrite IH; [reflexivity |].
    intros y Hy. apply H. right. exact Hy.
Qed.

(** When no required skill is spelled like a key of the weight table, the
    weighted sub-score of the matcher is the plain share of required skills
    that [AnalyticsEngine.calculate_match_quality] computes. *)
Theorem skill_match_agrees_with_match_quality (vs required : list string) :
  (forall s, In s required ->
     Py.contains String.eqb AgentConfig.MATCHING_WEIGHTS s = false) ->
  MatchingAgent._calculate_skill_match MatchingAgent.__init__ vs required
  == AnalyticsEngine.calculate_match_quality vs required.
Proof.
  intro Hkeys. destruct required as [| r rs]; [reflexivity |].
  rewrite MatchingAgent_skill_match_ratio.
  unfold AnalyticsEngine.calculate_match_quality. cbv zeta.
  assert (Hone : forall s, In s (r :: rs) ->
                   MatchingAgent.weight MatchingAgent.__init__ s == 1).
  { intros s Hs. unfold MatchingAgent.weight.
    rewrite get_absent; [reflexivity | apply Hkeys; exact Hs]. }
  rewrite (sum_ones _ (r :: rs) Hone).
  rewrite sum_ones; [reflexivity |].
  intros s Hs. apply Hone. apply set_inter_In in Hs. tauto.
Qed.

Lemma skill_match_agrees_with_match_quality_witness :
  MatchingAgent._calculate_skill_match MatchingAgent.__init__
    ["medical"; "leadership"] ["medical"; "patient_care"]
  == AnalyticsEngine.calculate_match_quality
       ["medical"; "leadership"] ["medical"; "patient_care"].
Proof.
  apply (skill_match_agrees_with_match_quality ["medical"; "leadership"]
           ["medical"; "patient_care"]).
  intros s Hs. simpl in Hs.
  destruct Hs as [<- | [<- | []]]; reflexivity.
Defined.

(** A required skill spelled like a key of the weight table is weighted by
    that entry: the two computations then differ. *)
Lemma skill_match_weight_key_sample :
  MatchingAgent._calculate_skill_match MatchingAgent.__init__
    ["location"] ["location"; "medical"] == 1 # 6
  /\ AnalyticsEngine.calculate_match_quality
       ["location"] ["location"; "medical"] == 1 # 2.
Proof. split; reflexivity. Qed.

(** ** [calculate_similarity] and [normalize_score] *)

Lemma length_inter_sym (xs ys : list string) :
  List.length (Py.set_inter xs ys) = List.length (Py.set_inter ys xs).
Proof.
  apply Permutation_length. apply NoDup_Permutation.
  - apply NoDup_filter, NoDup_nodup.
  - apply NoDup_filter, NoDup_nodup.
  - intro x. rewrite !set_inter_In. tauto.
Qed.

Lemma set_union_In (xs ys : list string) (z : string) :
  In z (Py.set_union xs ys) <-> In z xs \/ In z ys.
Proof.
  unfold Py.set_union, Py.set.
  rewrite in_app_iff, filter_In, !nodup_In, negb_true_iff.
  destruct (existsb (String.eqb z) xs) eqn:E.
  - apply existsb_eqb_In in E. intuition congruence.
  - assert (~ In z xs) by (intro H; apply existsb_eqb_In in H; congruence).
    tauto.
Qed.

Lemma set_union_NoDup (xs ys : list string) : NoDup (Py.set_union xs ys).
Proof.
  unfold Py.set_union, Py.set. apply NoDup_app.
  - apply NoDup_nodup.
  - apply NoDup_filter, NoDup_nodup.
  - intros z Hz Hz'. apply nodup_In in Hz.
    apply filter_In in Hz' as [_ Hz']. apply negb_true_iff in Hz'.
    apply existsb_eqb_In in Hz. congruence.
Qed.

Lemma length_union_sym (xs ys : list string) :
  List.length (Py.set_union xs ys) = List.length (Py.set_union ys xs).
Proof.
  apply Permutation_length. apply NoDup_Permutation.
  - apply set_union_NoDup.
  - apply set_union_NoDup.
  - intro x. rewrite !set_union_In. tauto.
Qed.

Lemma length_inter_le_union (xs ys : list string) :
  (List.length (Py.set_inter xs ys) <= List.length (Py.set_union xs ys))%nat.
Proof.
  apply NoDup_incl_length.
  - apply NoDup_filter, NoDup_nodup.
  - intros z Hz. apply set_inter_In in Hz. apply set_union_In. tauto.
Qed.

(** Both returns of [calculate_similarity] are one expression: with two
    empty sets the union is empty. *)
Lemma calculate_similarity_eq (a b : list string) :
  AgentUtils.calculate_similarity a b
  = if Py.ltb 0 (Py.len (Py.set_union a b))
    then Py.len (Py.set_inter a b) / Py.len (Py.set_union a b)
    else 0.0.
Proof.
  unfold AgentUtils.calculate_similarity.
  destruct (Py.set a) as [| x xs] eqn:Ea; [| reflexivity].
  destruct (Py.set b) as [| y ys] eqn:Eb; [| reflexivity].
  unfold Py.set_union. rewrite Ea, Eb. reflexivity.
Qed.

Lemma len_le (A B : Type) (l : list A) (l' : list B) :
  (List.length l <= List.length l')%nat -> Py.len l <= Py.len l'.
Proof.
  intro H. unfold Py.len. rewrite <- Zle_Qle. lia.
Qed.

(** The Jaccard similarity lies in [[0,1]] and does not depend on the order
    of its two arguments. *)
Theorem calculate_similarity_range_and_symmetry (a b : list string) :
  0 <= AgentUtils.calculate_similarity a b
  /\ AgentUtils.calculate_similarity a b <= 1
  /\ AgentUtils.calculate_similarity a b
     == AgentUtils.calculate_similarity b a.
Proof.
  rewrite !calculate_similarity_eq.
  pose proof (len_nonneg _ (Py.set_inter a b)) as Hi.
  pose proof (len_le _ _ _ _ (length_inter_le_union a b)) as Hiu.
  assert (Hsym : (if Py.ltb 0 (Py.len (Py.set_union a b))
                  then Py.len (Py.set_inter a b) / Py.len (Py.set_union a b)
                  else 0.0)
                 == (if Py.ltb 0 (Py.len (Py.set_union b a))
                     then Py.len (Py.set_inter b a)
                          / Py.len (Py.set_union b a)
                     else 0.0)).
  { unfold Py.len.
    rewrite (length_union_sym b a), (length_inter_sym b a). reflexivity. }
  split; [| split; [| exact Hsym]].
  - destruct (Py.ltb 0 _) eqn:E; [| lra].
    apply ltb_true in E. apply Qle_shift_div_l; [exact E | lra].
  - destruct (Py.ltb 0 _) eqn:E; [| lra].
    apply ltb_true in E. apply Qle_shift_div_r; [exact E | lra].
Qed.

(** Two non-empty sets with the same items have similarity [1]. *)
Theorem calculate_similarity_same_items (a b : list string) :
  a <> [] -> same_items a b ->
  AgentUtils.calculate_similarity a b == 1.
Proof.
  intros Hne Hsame. rewrite calculate_similarity_eq.
  assert (Hlen : List.length (Py.set_inter a b)
                 = List.length (Py.set_union a b)).
  { apply Permutation_length. apply NoDup_Permutation.
    - apply NoDup_filter, NoDup_nodup.
    - apply set_union_NoDup.
    - intro x. rewrite set_inter_In, set_union_In.
      specialize (Hsame x). tauto. }
  assert (Hpos : 0 < Py.len (Py.set_union a b)).
  { destruct a as [| x a]; [congruence |].
    destruct (Py.set_union (x :: a) b) as [| z zs] eqn:E.
    - assert (Hin : In x (Py.set_union (x :: a) b))
        by (apply set_union_In; left; left; reflexivity).
      rewrite E in Hin. contradiction.
    - rewrite len_cons. pose proof (len_nonneg _ zs). lra. }
  apply ltb_true in Hpos as Hb. rewrite Hb.
  unfold Py.len in *. rewrite Hlen.
  unfold Qdiv. apply Qmult_inv_r. lra.
Qed.

Lemma calculate_similarity_same_items_witness :
  AgentUtils.calculate_similarity ["medical"; "teaching"]
    ["teaching"; "medical"; "teaching"] == 1.
Proof.
  apply (calculate_similarity_same_items ["medical"; "teaching"]
           ["teaching"; "medical"; "teaching"]).
  - discriminate.
  - intro x. simpl. tauto.
Defined.

Lemma max_cases (a b : Q) :
  (a < b /\ Py.max a b = b) \/ (b <= a /\ Py.max a b = a).
Proof.
  unfold Py.max. destruct (Py.ltb a b) eqn:E.
  - left. split; [apply ltb_true; assumption | reflexivity].
  - right. split; [apply ltb_false; assumption | reflexivity].
Qed.

Lemma clamp_range (x : Q) :
  0 <= Py.max 0.0 (Py.min x 1.0) /\ Py.max 0.0 (Py.min x 1.0) <= 1.
Proof.
  pose proof (min_le_r x 1.0) as Hr.
  destruct (max_cases 0.0 (Py.min x 1.0)) as [[H ->] | [H ->]]; lra.
Qed.

(** [normalize_score] fails exactly for a zero maximum; otherwise its
    result lies in [[0,1]], for every score and every maximum, of either
    sign. *)
Theorem normalize_score_range (score max_score : Q) :
  match AgentUtils.normalize_score score max_score with
  | None => max_score == 0
  | Some r => ~ max_score == 0 /\ 0 <= r /\ r <= 1
  end.
Proof.
  unfold AgentUtils.normalize_score.
  destruct (Qeq_bool max_score 0) eqn:E.
  - apply Qeq_bool_iff. exact E.
  - split; [apply Qeq_bool_neq; exact E |].
    apply clamp_range.
Qed.

(** A score already in [[0,1]] is left as it is by the default
    normalisation, so normalising twice is normalising once. *)
Theorem normalize_score_idempotent (score : Q) :
  match AgentUtils.normalize_score score 1.0 with
  | None => False
  | Some r =>
      match AgentUtils.normalize_score r 1.0 with
      | None => False
      | Some r' => r' == r
      end
  end.
Proof.
  pose proof (clamp_range (score / 1.0)) as [H0 H1].
  unfold AgentUtils.normalize_score.
  change (Qeq_bool 1.0 0) with false. cbv iota.
  set (r := Py.max 0.0 (Py.min (score / 1.0) 1.0)) in *.
  assert (Hm : Py.min (r / 1.0) 1.0 == r).
  { destruct (min_cases (r / 1.0) 1.0) as [[H ->] | [H ->]].
    - assert (r / 1.0 == r) by (field). lra.
    - field. }
  destruct (max_cases 0.0 (Py.min (r / 1.0) 1.0)) as [[H ->] | [H ->]]; lra.
Qed.

(** ** The orchestrator *)

(** The proximity is [0] or [25], and both are inside the crisis radius of
    [50]: an emergency mobilises every registered volunteer, wherever the
    crisis and the volunteers are. *)
Theorem mobilize_reaches_every_volunteer (self : SocialGoodOrchestrator.t)
    (crisis_location : string) :
  SocialGoodOrchestrator._mobilize_emergency_response self crisis_location
  = Z.of_nat (List.length (SocialGoodOrchestrator.volunteers self)).
Proof.
  unfold SocialGoodOrchestrator._mobilize_emergency_response. cbv zeta.
  rewrite filter_all; [reflexivity |].
  intros v _. unfold SocialGoodOrchestrator._calculate_proximity.
  destruct (String.eqb _ _); reflexivity.
Qed.

(** The mean of a non-empty list lies between any bounds of its items. *)
Lemma sum_bounds (lo hi : Q) (l : list Q) :
  Forall (fun x => lo <= x /\ x <= hi) l ->
  lo * Py.len l <= Py.sum l /\ Py.sum l <= hi * Py.len l.
Proof.
  induction 1 as [| x l [Hlo Hhi] Hl [IHlo IHhi]].
  - change (Py.len (@nil Q)) with 0. rewrite sum_nil. lra.
  - rewrite sum_cons, len_cons. lra.
Qed.

Lemma mean_bounds (lo hi x : Q) (l : list Q) :
  Forall (fun y => lo <= y /\ y <= hi) (x :: l) ->
  lo <= Py.sum (x :: l) / Py.len (x :: l)
  /\ Py.sum (x :: l) / Py.len (x :: l) <= hi.
Proof.
  intro H. destruct (sum_bounds lo hi _ H) as [Hlo Hhi].
  assert (Hpos : 0 < Py.len (x :: l)).
  { rewrite len_cons. pose proof (len_nonneg _ l). lra. }
  split.
  - apply Qle_shift_div_l; [exact Hpos | exact Hlo].
  - apply Qle_shift_div_r; [exact Hpos | exact Hhi].
Qed.



(** Registering a volunteer and creating an opportunity append to the
    orchestrator's lists and leave everything registered before in place;
    the matches returned on registration are computed against the
    opportunities known at that moment, and a crisis right after
    mobilises one volunteer more. *)
Theorem register_volunteer_effect (self : SocialGoodOrchestrator.t)
    (v : Volunteer.t) (crisis_location : string) :
  let matches := fst (SocialGoodOrchestrator.register_volunteer self v) in
  let self' := snd (SocialGoodOrchestrator.register_volunteer self v) in
  SocialGoodOrchestrator.volunteers self'
  = SocialGoodOrchestrator.volunteers self ++ [v]
  /\ SocialGoodOrchestrator.opportunities self'
     = SocialGoodOrchestrator.opportunities self
  /\ matches
     = MatchingAgent.find_matches (SocialGoodOrchestrator.matcher self) v
         (SocialGoodOrchestrator.opportunities self)
  /\ SocialGoodOrchestrator._mobilize_emergency_response self'
       crisis_location
     = (SocialGoodOrchestrator._mobilize_emergency_response self
          crisis_location + 1)%Z.
Proof.
  cbv zeta. repeat split.
  unfold SocialGoodOrchestrator._mobilize_emergency_response. cbv zeta.
  rewrite !filter_all.
  - cbn [SocialGoodOrchestrator.register_volunteer snd
           SocialGoodOrchestrator.volunteers].
    rewrite length_app. simpl. lia.
  - intros x _. unfold SocialGoodOrchestrator._calculate_proximity.
    destruct (String.eqb _ _); reflexivity.
  - intros x _. unfold SocialGoodOrchestrator._calculate_proximity.
    destruct (String.eqb _ _); reflexivity.
Qed.

(** ** Reports of the impact agent *)

Lemma recent_completions_after_record (self : ImpactAgent.t)
    (now1 now2 : datetime) (v : Volunteer.t) (o : Opportunity.t)
    (outcomes : Outcomes.t) (now : datetime) (days : Z) :
  ImpactAgent.recent_completions
    (snd (ImpactAgent.record_completion self now1 now2 v o outcomes)) now days
  = ImpactAgent.recent_completions self now days
    ++ (if (now - ImpactAgent.timedelta_days days <=? now1)%Z
        then [fst (ImpactAgent.record_completion self now1 now2 v o outcomes)]
        else []).
Proof.
  unfold ImpactAgent.recent_completions, ImpactAgent.record_completion.
  cbv zeta. cbn [snd fst ImpactAgent.completed_projects].
  rewrite filter_app. reflexivity.
Qed.

(** A report after a recording counts the new completion exactly when its
    completion date is inside the window ([now - days] inclusive), and
    then adds its hours; everything counted before is still counted. *)
Theorem report_after_record (self : ImpactAgent.t) (now1 now2 : datetime)
    (v : Volunteer.t) (o : Opportunity.t) (outcomes : Outcomes.t)
    (now : datetime) (days : Z) :
  let self' :=
    snd (ImpactAgent.record_completion self now1 now2 v o outcomes) in
  let inside := (now - ImpactAgent.timedelta_days days <=? now1)%Z in
  ImpactAgent.total_completions self' now days
  = (ImpactAgent.total_completions self now days
     + (if inside then 1 else 0))%Z
  /\ ImpactAgent.total_volunteer_hours self' now days
     == ImpactAgent.total_volunteer_hours self now days
        + (if inside
           then Outcomes.get_or 0 (Outcomes.hours_contributed outcomes)
           else 0).
Proof.
  cbv zeta.
  unfold ImpactAgent.total_completions, ImpactAgent.total_volunteer_hours.
  rewrite recent_completions_after_record.
  destruct (now - ImpactAgent.timedelta_days days <=? now1)%Z.
  - split.
    + rewrite length_app. simpl. lia.
    + rewrite map_app. unfold Py.sum. rewrite fold_left_app. simpl. lra.
  - rewrite app_nil_r. split; [lia | lra].
Qed.

Lemma filter_length_mono (A : Type) (p q : A -> bool) (l : list A) :
  (forall x, p x = true -> q x = true) ->
  (List.length (filter p l) <= List.length (filter q l))%nat.
Proof.
  intro H. induction l as [| x l IH]; simpl; [lia |].
  destruct (p x) eqn:Ep.
  - rewrite (H x Ep). simpl. lia.
  - destruct (q x); simpl; lia.
Qed.

(** A longer reporting window never counts fewer completions. *)
Theorem report_window_monotone (self : ImpactAgent.t) (now : datetime)
    (days days' : Z) :
  (days <= days')%Z ->
  (ImpactAgent.total_completions self now days
   <= ImpactAgent.total_completions self now days')%Z.
Proof.
  intro H. unfold ImpactAgent.total_completions, ImpactAgent.recent_completions.
  cbv zeta. apply Nat2Z.inj_le. apply filter_length_mono.
  intros c Hc. unfold ImpactAgent.timedelta_days in *.
  apply Z.leb_le in Hc. apply Z.leb_le. lia.
Qed.

Lemma report_window_monotone_witness :
  (ImpactAgent.total_completions
     (snd (ImpactAgent.record_completion ImpactAgent.__init__ 100%Z 100%Z
             Examples.v_strong (Examples.clinic "opp_001" 15%Z)
             (Examples.outcomes 25 8 0.9 0.7)))
     (100 + 86400 * 10)%Z 7%Z
   <= ImpactAgent.total_completions
        (snd (ImpactAgent.record_completion ImpactAgent.__init__ 100%Z 100%Z
                Examples.v_strong (Examples.clinic "opp_001" 15%Z)
                (Examples.outcomes 25 8 0.9 0.7)))
        (100 + 86400 * 10)%Z 30%Z)%Z.
Proof.
  apply (report_window_monotone
           (snd (ImpactAgent.record_completion ImpactAgent.__init__ 100%Z
                   100%Z Examples.v_strong (Examples.clinic "opp_001" 15%Z)
                   (Examples.outcomes 25 8 0.9 0.7)))
           (100 + 86400 * 10)%Z 7%Z 30%Z).
  lia.
Defined.

Lemma nodup_length_le (l : list string) :
  (List.length (nodup string_dec l) <= List.length l)%nat.
Proof.
  induction l as [| x l IH]; simpl; [lia |].
  destruct (in_dec string_dec x l); simpl; lia.
Qed.

Lemma nodup_nil_iff (l : list string) : nodup string_dec l = [] <-> l = [].
Proof.
  split; [| intros ->; reflexivity].
  destruct l as [| x l]; [reflexivity |]. intro H.
  assert (Hin : In x (nodup string_dec (x :: l)))
    by (apply nodup_In; left; reflexivity).
  rewrite H in Hin. contradiction.
Qed.

(** The number of unique volunteers in a report never exceeds the number
    of completions, and is zero only for a window without completions. *)
Theorem unique_volunteers_bounds (self : ImpactAgent.t) (now : datetime)
    (days : Z) :
  (ImpactAgent.unique_volunteers self now days
   <= ImpactAgent.total_completions self now days)%Z
  /\ (ImpactAgent.unique_volunteers self now days = 0%Z
      <-> ImpactAgent.total_completions self now days = 0%Z).
Proof.
  unfold ImpactAgent.unique_volunteers, ImpactAgent.total_completions, Py.set.
  set (cs := ImpactAgent.recent_completions self now days).
  pose proof (nodup_length_le (map CompletionRecord.volunteer_id cs)) as Hle.
  rewrite length_map in Hle.
  split; [lia |].
  split; intro H.
  - assert (Hn : nodup string_dec (map CompletionRecord.volunteer_id cs) = []).
    { apply length_zero_iff_nil. lia. }
    apply (proj1 (nodup_nil_iff _)) in Hn. apply map_eq_nil in Hn.
    rewrite Hn. reflexivity.
  - assert (Hc : cs = []) by (apply length_zero_iff_nil; lia).
    rewrite Hc. reflexivity.
Qed.

(** ** Further properties of impact scoring *)

Lemma area_multiplier_init (o : Opportunity.t) :
  ImpactAgent.area_multiplier ImpactAgent.__init__ o = 1.0.
Proof.
  unfold ImpactAgent.area_multiplier.
  destruct (Opportunity.impact_area o); reflexivity.
Qed.

Lemma urgency_multiplier_pos (u : UrgencyLevel) :
  0 < AgentUtils.calculate_urgency_multiplier u.
Proof. destruct u; reflexivity. Qed.

Lemma min_mono_l (a a' c : Q) : a <= a' -> Py.min a c <= Py.min a' c.
Proof.
  intro H.
  destruct (min_cases a c) as [[H1 ->] | [H1 ->]];
    destruct (min_cases a' c) as [[H2 ->] | [H2 ->]]; lra.
Qed.

(** The urgency multiplier of impact scoring is half the urgency ordinal,
    so it grows strictly with the urgency level. *)
Theorem urgency_multiplier_linear (u : UrgencyLevel) :
  AgentUtils.calculate_urgency_multiplier u
  == inject_Z (UrgencyLevelM.value u) * 0.5.
Proof. destruct u; reflexivity. Qed.

(** The impact score written out for the configured agent. *)
Lemma impact_score_init (o : Opportunity.t) (outcomes : Outcomes.t) :
  ImpactAgent._calculate_impact_score ImpactAgent.__init__ o outcomes
  = Py.min
      ((0.0
        + Py.min
            (Outcomes.get_or 0 (Outcomes.people_impacted outcomes) * 0.1) 0.4
        + Outcomes.get_or 0 (Outcomes.hours_contributed outcomes)
          * Outcomes.get_or 0.5 (Outcomes.quality_rating outcomes) * 0.05)
       * 1.0
       * AgentUtils.calculate_urgency_multiplier (Opportunity.urgency o)
       * (1 + Outcomes.get_or 0.5 (Outcomes.sustainability_score outcomes)))
      1.0.
Proof.
  unfold ImpactAgent._calculate_impact_score. cbv zeta.
  rewrite area_multiplier_init. reflexivity.
Qed.

(** For outcomes that are not negative the impact score is not negative,
    and it is [0] exactly when nobody was impacted and the hours times the
    quality are [0]. *)
Theorem impact_score_nonneg_and_zero (o : Opportunity.t)
    (outcomes : Outcomes.t) :
  let people := Outcomes.get_or 0 (Outcomes.people_impacted outcomes) in
  let hours := Outcomes.get_or 0 (Outcomes.hours_contributed outcomes) in
  let quality := Outcomes.get_or 0.5 (Outcomes.quality_rating outcomes) in
  let sustainability :=
    Outcomes.get_or 0.5 (Outcomes.sustainability_score outcomes) in
  0 <= people -> 0 <= hours -> 0 <= quality -> 0 <= sustainability ->
  0 <= ImpactAgent._calculate_impact_score ImpactAgent.__init__ o outcomes
  /\ (ImpactAgent._calculate_impact_score ImpactAgent.__init__ o outcomes == 0
      <-> people == 0 /\ hours * quality == 0).
Proof.
  intros people hours quality sustainability Hp Hh Hq Hs.
  rewrite impact_score_init.
  fold people hours quality sustainability.
  pose proof (urgency_multiplier_pos (Opportunity.urgency o)) as Hu.
  set (um := AgentUtils.calculate_urgency_multiplier (Opportunity.urgency o))
    in *.
  assert (Hhq : 0 <= hours * quality) by (apply Qmult_le_0_compat; assumption).
  assert (Hk : 0 < um * (1 + sustainability))
    by (apply Qmult_lt_0_compat; lra).
  set (k := um * (1 + sustainability)) in *.
  set (hq := hours * quality) in *.
  assert (Hb : 0 <= Py.min (people * 0.1) 0.4) by (apply min_glb; lra).
  set (b := Py.min (people * 0.1) 0.4) in *.
  assert (Hfin : (0.0 + b + hq * 0.05) * 1.0 * um * (1 + sustainability)
                 == (b + hq * 0.05) * k) by (unfold k; ring).
  assert (Hprod : 0 <= (b + hq * 0.05) * k)
    by (apply Qmult_le_0_compat; lra).
  assert (Hb0 : b == 0 <-> people == 0).
  { unfold b. destruct (min_cases (people * 0.1) 0.4) as [[H ->] | [H ->]];
      split; intro; lra. }
  split.
  - apply min_glb; lra.
  - split.
    + intro H0.
      assert (Hz : (b + hq * 0.05) * k == 0).
      { destruct (min_cases ((0.0 + b + hq * 0.05) * 1.0 * um
                             * (1 + sustainability)) 1.0)
          as [[H1 E] | [H1 E]]; rewrite E in H0; lra. }
      apply Qmult_integral in Hz as [Hz | Hz]; [| lra].
      split; [apply Hb0 |]; lra.
    + intros [Hp0 Hhq0]. apply Hb0 in Hp0.
      assert (Hz : (0.0 + b + hq * 0.05) * 1.0 * um * (1 + sustainability)
                   == 0) by (rewrite Hfin, Hp0, Hhq0; ring).
      destruct (min_cases ((0.0 + b + hq * 0.05) * 1.0 * um
                           * (1 + sustainability)) 1.0)
        as [[H1 E] | [H1 E]]; rewrite E; lra.
Qed.

Lemma impact_score_nonneg_and_zero_witness :
  0 <= ImpactAgent._calculate_impact_score ImpactAgent.__init__
         Examples.tutoring (Examples.outcomes 0 8 0 0.7)
  /\ (ImpactAgent._calculate_impact_score ImpactAgent.__init__
        Examples.tutoring (Examples.outcomes 0 8 0 0.7) == 0
      <-> 0 == 0 /\ 8 * 0 == 0).
Proof.
  apply (impact_score_nonneg_and_zero Examples.tutoring
           (Examples.outcomes 0 8 0 0.7));
    simpl; lra.
Defined.

(** More people impacted or more hours contributed never lower the impact
    score, for a quality and a sustainability that are not negative. *)
Theorem impact_score_monotone (o : Opportunity.t)
    (people people' hours hours' quality sustainability : Q)
    (feedback : option (Py.dict string string)) :
  people <= people' -> hours <= hours' ->
  0 <= quality -> 0 <= sustainability ->
  ImpactAgent._calculate_impact_score ImpactAgent.__init__ o
    (Outcomes.mk (Some people) (Some hours) (Some quality)
       (Some sustainability) feedback)
  <= ImpactAgent._calculate_impact_score ImpactAgent.__init__ o
       (Outcomes.mk (Some people') (Some hours') (Some quality)
          (Some sustainability) feedback).
Proof.
  intros Hp Hh Hq Hs. rewrite !impact_score_init.
  cbn [Outcomes.get_or Outcomes.people_impacted Outcomes.hours_contributed
         Outcomes.quality_rating Outcomes.sustainability_score].
  pose proof (urgency_multiplier_pos (Opportunity.urgency o)) as Hu.
  set (um := AgentUtils.calculate_urgency_multiplier (Opportunity.urgency o))
    in *.
  apply min_mono_l.
  assert (Hb : Py.min (people * 0.1) 0.4 <= Py.min (people' * 0.1) 0.4)
    by (apply min_mono_l; lra).
  assert (Hhq : hours * quality <= hours' * quality)
    by (apply Qmult_le_compat_r; assumption).
  assert (Hk : 0 <= 1.0 * um * (1 + sustainability))
    by (apply Qmult_le_0_compat; lra).
  set (b := Py.min (people * 0.1) 0.4) in *.
  set (b' := Py.min (people' * 0.1) 0.4) in *.
  assert (Hgoal : (0.0 + b + hours * quality * 0.05)
                  * (1.0 * um * (1 + sustainability))
                  <= (0.0 + b' + hours' * quality * 0.05)
                     * (1.0 * um * (1 + sustainability)))
    by (apply Qmult_le_compat_r; [lra | exact Hk]).
  lra.
Qed.

Lemma impact_score_monotone_witness :
  ImpactAgent._calculate_impact_score ImpactAgent.__init__ Examples.tutoring
    (Outcomes.mk (Some 1) (Some 2) (Some 0.9) (Some 0.7) None)
  <= ImpactAgent._calculate_impact_score ImpactAgent.__init__
       Examples.tutoring
       (Outcomes.mk (Some 3) (Some 2) (Some 0.9) (Some 0.7) None).
Proof.
  apply (impact_score_monotone Examples.tutoring 1 3 2 2 0.9 0.7 None); lra.
Defined.

Lemma urgency_multiplier_mono (u u' : UrgencyLevel) :
  (UrgencyLevelM.value u <= UrgencyLevelM.value u')%Z ->
  AgentUtils.calculate_urgency_multiplier u
  <= AgentUtils.calculate_urgency_multiplier u'.
Proof.
  destruct u, u'; simpl; intro H; try lia;
    unfold AgentUtils.calculate_urgency_multiplier; simpl; lra.
Qed.

(** Unlike the match score, the impact score does depend on the urgency:
    for outcomes that are not negative, a higher urgency level never gives
    a lower impact score. *)
Theorem impact_score_monotone_in_urgency (o : Opportunity.t)
    (u u' : UrgencyLevel) (outcomes : Outcomes.t) :
  (UrgencyLevelM.value u <= UrgencyLevelM.value u')%Z ->
  0 <= Outcomes.get_or 0 (Outcomes.people_impacted outcomes) ->
  0 <= Outcomes.get_or 0 (Outcomes.hours_contributed outcomes) ->
  0 <= Outcomes.get_or 0.5 (Outcomes.quality_rating outcomes) ->
  0 <= Outcomes.get_or 0.5 (Outcomes.sustainability_score outcomes) ->
  ImpactAgent._calculate_impact_score ImpactAgent.__init__ (with_urgency o u)
    outcomes
  <= ImpactAgent._calculate_impact_score ImpactAgent.__init__
       (with_urgency o u') outcomes.
Proof.
  intros Hu Hp Hh Hq Hs. rewrite !impact_score_init.
  cbn [with_urgency Opportunity.urgency].
  pose proof (urgency_multiplier_mono u u' Hu) as Hm.
  pose proof (urgency_multiplier_pos u) as Hpos.
  set (um := AgentUtils.calculate_urgency_multiplier u) in *.
  set (um' := AgentUtils.calculate_urgency_multiplier u') in *.
  set (p := Outcomes.get_or 0 (Outcomes.people_impacted outcomes)) in *.
  set (h := Outcomes.get_or 0 (Outcomes.hours_contributed outcomes)) in *.
  set (q := Outcomes.get_or 0.5 (Outcomes.quality_rating outcomes)) in *.
  set (s := Outcomes.get_or 0.5 (Outcomes.sustainability_score outcomes)) in *.
  apply min_mono_l.
  assert (Hb : 0 <= Py.min (p * 0.1) 0.4) by (apply min_glb; lra).
  set (b := Py.min (p * 0.1) 0.4) in *.
  assert (Hhq : 0 <= h * q) by (apply Qmult_le_0_compat; assumption).
  assert (Hc : 0 <= (0.0 + b + h * q * 0.05) * (1 + s))
    by (apply Qmult_le_0_compat; lra).
  assert (Hgoal : (0.0 + b + h * q * 0.05) * (1 + s) * um
                  <= (0.0 + b + h * q * 0.05) * (1 + s) * um').
  { rewrite !(Qmult_comm ((0.0 + b + h * q * 0.05) * (1 + s))).
    apply Qmult_le_compat_r; assumption. }
  assert (E : forall m, (0.0 + b + h * q * 0.05) * 1.0 * m * (1 + s)
                        == (0.0 + b + h * q * 0.05) * (1 + s) * m)
    by (intro m; ring).
  rewrite !E. exact Hgoal.
Qed.

Lemma impact_score_monotone_in_urgency_witness :
  ImpactAgent._calculate_impact_score ImpactAgent.__init__
    (with_urgency Examples.tutoring LOW) (Examples.outcomes 1 2 0.9 0.7)
  <= ImpactAgent._calculate_impact_score ImpactAgent.__init__
       (with_urgency Examples.tutoring CRITICAL)
       (Examples.outcomes 1 2 0.9 0.7).
Proof.
  apply (impact_score_monotone_in_urgency Examples.tutoring LOW CRITICAL
           (Examples.outcomes 1 2 0.9 0.7)); simpl; try lia; lra.
Defined.

(** ** The counters of the single-file impact tracker *)

Lemma tracking_score_le_one (o : Opportunity.t) (outcomes : Outcomes.t) :
  ImpactTrackingAgent._calculate_impact_score o outcomes <= 1.
Proof.
  unfold ImpactTrackingAgent._calculate_impact_score. cbv zeta.
  match goal with
  | |- Py.min ?a ?b <= _ => pose proof (min_le_r a b) as H
  end.
  lra.
Qed.

Lemma record_all_counts (self : ImpactTrackingAgent.t)
    (cs : list (Opportunity.t * Outcomes.t)) :
  ImpactTrackingAgent.projects_completed
    (ImpactTrackingAgent.record_all self cs)
  = (ImpactTrackingAgent.projects_completed self
     + Z.of_nat (List.length cs))%Z
  /\ ImpactTrackingAgent.total_impact_score
       (ImpactTrackingAgent.record_all self cs)
     <= ImpactTrackingAgent.total_impact_score self + Py.len cs.
Proof.
  unfold ImpactTrackingAgent.record_all.
  revert self. induction cs as [| [o out] cs IH]; intro self.
  - simpl. split; [lia |]. change (Py.len (@nil (Opportunity.t * Outcomes.t)))
      with 0. lra.
  - cbn [fold_left fst snd].
    destruct (IH (ImpactTrackingAgent.record_completion_state self o out))
      as [Hn Ht].
    split.
    + rewrite Hn. cbn [ImpactTrackingAgent.record_completion_state
                         ImpactTrackingAgent.projects_completed List.length].
      lia.
    + eapply Qle_trans; [exact Ht |].
      cbn [ImpactTrackingAgent.record_completion_state
             ImpactTrackingAgent.total_impact_score].
      rewrite len_cons.
      pose proof (tracking_score_le_one o out). lra.
Qed.

(** After any sequence of recordings on a fresh tracker, the project counter
    is the number of recordings, the accumulated impact is at most that
    number, and the reported average impact per project is at most [1]
    (also for no recording at all, where the divisor is floored at 1). *)
Theorem tracker_counters (cs : list (Opportunity.t * Outcomes.t)) :
  let self := ImpactTrackingAgent.record_all ImpactTrackingAgent.__init__ cs in
  ImpactTrackingAgent.projects_completed self = Z.of_nat (List.length cs)
  /\ ImpactTrackingAgent.total_impact_score self <= Py.len cs
  /\ ImpactTrackingAgent.average_impact_per_project self <= 1.
Proof.
  cbv zeta.
  destruct (record_all_counts ImpactTrackingAgent.__init__ cs) as [Hn Ht].
  cbn [ImpactTrackingAgent.__init__ ImpactTrackingAgent.projects_completed
         ImpactTrackingAgent.total_impact_score] in Hn, Ht.
  split; [rewrite Hn; lia |].
  split; [lra |].
  unfold ImpactTrackingAgent.average_impact_per_project. rewrite Hn.
  set (t := ImpactTrackingAgent.total_impact_score _) in *.
  assert (Hd : Py.len cs <= inject_Z (Z.max (0 + Z.of_nat (List.length cs)) 1)
               /\ 1 <= inject_Z (Z.max (0 + Z.of_nat (List.length cs)) 1)).
  { unfold Py.len. change 1 with (inject_Z 1). rewrite <- !Zle_Qle. lia. }
  destruct Hd as [Hd1 Hd2].
  apply Qle_shift_div_r; lra.
Qed.

(** ** Further properties of resource allocation *)






(** ** The analytics helpers *)

(** The match quality lies in [[0,1]] for every pair of skill lists. *)
Theorem match_quality_range (vs required : list string) :
  0 <= AnalyticsEngine.calculate_match_quality vs required
  /\ AnalyticsEngine.calculate_match_quality vs required <= 1.
Proof.
  unfold AnalyticsEngine.calculate_match_quality.
  destruct required as [| r rs]; [split; lra |]. cbv zeta.
  assert (Hpos : 0 < Py.len (r :: rs)).
  { rewrite len_cons. pose proof (len_nonneg _ rs). lra. }
  pose proof (len_nonneg _ (Py.set_inter vs (r :: rs))) as H0.
  assert (Hle : Py.len (Py.set_inter vs (r :: rs)) <= Py.len (r :: rs)).
  { apply len_le. unfold Py.set_inter, Py.set.
    eapply Nat.le_trans; [apply filter_length_le | apply nodup_length_le]. }
  split.
  - apply Qle_shift_div_l; [exact Hpos | lra].
  - apply Qle_shift_div_r; [exact Hpos | lra].
Qed.

(** The efficiency rating of an analytics report never exceeds [10],
    whatever the completions hold, also with no hours at all. *)
Theorem analytics_efficiency_capped (completions : list CompletionDict.t) :
  ImpactReport.efficiency_rating
    (AnalyticsEngine.generate_impact_report completions) <= 10.
Proof.
  unfold AnalyticsEngine.generate_impact_report. cbv zeta.
  cbn [ImpactReport.efficiency_rating].
  match goal with
  | |- Py.min ?a ?b <= _ => pose proof (min_le_r a b) as H
  end.
  lra.
Qed.

(** When every recorded impact score lies in [[0,1]] (an absent score
    counts as [0]), so does the average impact score of the report; for no
    completions at all it is [0] by the explicit fallback. *)
Theorem analytics_average_range (completions : list CompletionDict.t) :
  Forall (fun c => 0 <= Outcomes.get_or 0 (CompletionDict.impact_score c)
                   /\ Outcomes.get_or 0 (CompletionDict.impact_score c) <= 1)
    completions ->
  0 <= ImpactReport.average_impact_score
         (AnalyticsEngine.generate_impact_report completions)
  /\ ImpactReport.average_impact_score
       (AnalyticsEngine.generate_impact_report completions) <= 1.
Proof.
  intro H. unfold AnalyticsEngine.generate_impact_report. cbv zeta.
  cbn [ImpactReport.average_impact_score].
  destruct completions as [| c cs]; [split; lra |].
  assert (Hq : Forall (fun y => 0 <= y /\ y <= 1)
                 (map (fun c => Outcomes.get_or 0 (CompletionDict.impact_score c))
                    (c :: cs))).
  { apply Forall_forall. intros y Hy.
    apply in_map_iff in Hy as [z [<- Hz]].
    rewrite Forall_forall in H. apply H. exact Hz. }
  simpl map in Hq. apply mean_bounds in Hq.
  replace (Py.len (c :: cs))
    with (Py.len (Outcomes.get_or 0 (CompletionDict.impact_score c)
                  :: map (fun c => Outcomes.get_or 0
                                     (CompletionDict.impact_score c)) cs)).
  - exact Hq.
  - unfold Py.len. simpl. now rewrite length_map.
Qed.

Lemma analytics_average_range_witness :
  0 <= ImpactReport.average_impact_score
         (AnalyticsEngine.generate_impact_report
            [ CompletionDict.mk (Some 8) (Some 25) (Some 1);
              CompletionDict.mk (Some 2) None None ])
  /\ ImpactReport.average_impact_score
       (AnalyticsEngine.generate_impact_report
          [ CompletionDict.mk (Some 8) (Some 25) (Some 1);
            CompletionDict.mk (Some 2) None None ]) <= 1.
Proof.
  apply (analytics_average_range
           [ CompletionDict.mk (Some 8) (Some 25) (Some 1);
             CompletionDict.mk (Some 2) None None ]).
  repeat constructor; simpl; lra.
Defined.

(** The utility [calculate_impact_score] never exceeds [0.7], the sum of
    its two caps, whatever its inputs: it cannot reach the clamp at [1.0]
    that the agents apply. *)
Theorem utility_impact_score_capped (people hours quality : Q) :
  AgentUtils.calculate_impact_score people hours quality <= 0.7.
Proof.
  unfold AgentUtils.calculate_impact_score. cbv zeta.
  pose proof (min_le_r (people * 0.1) 0.4) as H1.
  pose proof (min_le_r (hours * quality * 0.05) 0.3) as H2.
  lra.
Qed.

(** ** The greedy allocation of [main.py] *)

Lemma get_setitem (d : Py.dict string Z) (k k' : string) (v default : Z) :
  Py.get String.eqb (Py.setitem String.eqb d k v) k' default
  = if String.eqb k k' then v else Py.get String.eqb d k' default.
Proof.
  induction d as [| [k0 v0] d IH]; simpl.
  - reflexivity.
  - destruct (String.eqb_spec k0 k) as [-> | Hk]; simpl.
    + destruct (String.eqb k k'); reflexivity.
    + destruct (String.eqb_spec k0 k') as [-> | Hk'].
      * destruct (String.eqb_spec k k') as [-> | _]; [congruence | reflexivity].
      * exact IH.
Qed.

(** Serving the needs of one opportunity moves amounts from the remaining
    resources to its allocation: per resource type, what is allocated plus
    what remains usable is unchanged. *)
Lemma allocate_needs_conserves (rt : string)
    (needs op_allocation remaining : Py.dict string Z) :
  NoDup (map fst needs) ->
  (forall k, In k (map fst needs) ->
     Py.get String.eqb op_allocation k 0%Z = 0%Z) ->
  (0 <= Py.get String.eqb op_allocation rt 0)%Z ->
  let r :=
    Main.ResourceOptimizationAgent.allocate_needs needs op_allocation
      remaining in
  (Py.get String.eqb (fst r) rt 0 + Z.max 0 (Py.get String.eqb (snd r) rt 0)
   = Py.get String.eqb op_allocation rt 0
     + Z.max 0 (Py.get String.eqb remaining rt 0))%Z
  /\ (0 <= Py.get String.eqb (fst r) rt 0)%Z.
Proof.
  revert op_allocation remaining.
  induction needs as [| [k needed] needs IH];
    intros opa rem Hnd Hfresh Hnn; cbv zeta.
  - simpl. split; [reflexivity | exact Hnn].
  - cbn [Main.ResourceOptimizationAgent.allocate_needs].
    simpl map in Hnd, Hfresh. apply NoDup_cons_iff in Hnd as [Hk Hnd].
    cbv zeta.
    destruct (Z.ltb_spec 0 (Z.min needed (Py.get String.eqb rem k 0%Z)))
      as [Hpos | Hnpos].
    + specialize (IH
                    (Py.setitem String.eqb opa k
                       (Z.min needed (Py.get String.eqb rem k 0%Z)))
                    (Py.setitem String.eqb rem k
                       (Py.get String.eqb rem k 0
                        - Z.min needed (Py.get String.eqb rem k 0))%Z)
                    Hnd).
      cbv zeta in IH. rewrite !get_setitem in IH.
      assert (Hfresh' : forall k0, In k0 (map fst needs) ->
                Py.get String.eqb
                  (Py.setitem String.eqb opa k
                     (Z.min needed (Py.get String.eqb rem k 0%Z))) k0 0%Z
                = 0%Z).
      { intros k0 Hk0. rewrite get_setitem.
        destruct (String.eqb_spec k k0) as [-> | _]; [contradiction |].
        apply Hfresh. right. exact Hk0. }
      specialize (IH Hfresh').
      destruct (String.eqb_spec k rt) as [-> | Hne].
      * assert (H0 : Py.get String.eqb opa rt 0%Z = 0%Z)
          by (apply Hfresh; left; reflexivity).
        destruct (IH ltac:(lia)) as [IH1 IH2].
        split; [| exact IH2]. rewrite IH1, H0. lia.
      * exact (IH Hnn).
    + apply IH; [exact Hnd | | exact Hnn].
      intros k0 Hk0. apply Hfresh. right. exact Hk0.
Qed.

Lemma needs_keys_NoDup (o : Main.Opportunity.t) :
  NoDup (map fst (Main.ResourceOptimizationAgent.estimate_resource_needs o)).
Proof.
  simpl. repeat constructor; simpl; intuition discriminate.
Qed.

Lemma allocated_total_setitem (allocation : Py.dict Z (Py.dict string Z))
    (id : Z) (opa : Py.dict string Z) (rt : string) :
  Forall (fun e => (0 <= Py.get String.eqb (snd e) rt 0)%Z) allocation ->
  (allocated_total (Py.setitem Z.eqb allocation id opa) rt
   <= allocated_total allocation rt + Py.get String.eqb opa rt 0)%Z.
Proof.
  induction 1 as [| [id0 a0] allocation Ha Hall IH]; simpl.
  - lia.
  - destruct (Z.eqb id0 id); simpl in *; lia.
Qed.

Lemma setitem_Forall (A : Type) (P : Z * A -> Prop)
    (d : Py.dict Z A) (k : Z) (v : A) :
  Forall P d -> (forall k', P (k', v)) ->
  Forall P (Py.setitem Z.eqb d k v).
Proof.
  intros Hd Hv. induction Hd as [| [k0 v0] d H0 Hd IH]; simpl.
  - constructor; [apply Hv | constructor].
  - destruct (Z.eqb k0 k); constructor; auto.
Qed.

Lemma allocate_loop_bounded (rt : string) (ops : list Main.Opportunity.t)
    (allocation : Py.dict Z (Py.dict string Z))
    (remaining : Py.dict string Z) (bound : Z) :
  Forall (fun e => (0 <= Py.get String.eqb (snd e) rt 0)%Z) allocation ->
  (allocated_total allocation rt
   + Z.max 0 (Py.get String.eqb remaining rt 0) <= bound)%Z ->
  (allocated_total
     (Main.ResourceOptimizationAgent.allocate_loop ops allocation remaining)
     rt <= bound)%Z.
Proof.
  revert allocation remaining.
  induction ops as [| o ops IH]; intros allocation remaining Hnn Hb.
  - simpl. lia.
  - cbn [Main.ResourceOptimizationAgent.allocate_loop].
    pose proof (allocate_needs_conserves rt
                  (Main.ResourceOptimizationAgent.estimate_resource_needs o)
                  [] remaining (needs_keys_NoDup o)
                  (fun _ _ => eq_refl) (Z.le_refl 0)) as Hc.
    cbv zeta in Hc.
    destruct (Main.ResourceOptimizationAgent.allocate_needs _ [] remaining)
      as [opa rem'].
    cbn [fst snd] in Hc. destruct Hc as [Hsum Hopa].
    change (Py.get String.eqb [] rt 0%Z) with 0%Z in Hsum.
    destruct opa as [| e opa].
    + apply IH; [exact Hnn |]. simpl in Hsum. lia.
    + apply IH.
      * apply setitem_Forall; [exact Hnn |]. intro k'. exact Hopa.
      * pose proof (allocated_total_setitem allocation
                      (Main.Opportunity.id o) (e :: opa) rt Hnn).
        lia.
Qed.

(** The greedy allocation never hands out more of a resource than is
    available: for every resource type, the amounts over all opportunities
    in the returned allocation add up to at most the available amount (to
    nothing, for an amount that is missing or negative). *)
Theorem greedy_allocation_within_available
    (opportunities : list Main.Opportunity.t)
    (available : Py.dict string Z) (resource_type : string) :
  (0 <= allocated_total
          (Main.ResourceOptimizationAgent.allocate_resources opportunities
             available) resource_type
   <= Z.max 0 (Py.get String.eqb available resource_type 0))%Z.
Proof.
  unfold Main.ResourceOptimizationAgent.allocate_resources. cbv zeta.
  split.
  - assert (Hgen : forall ops allocation remaining,
              Forall (fun e => (0 <= Py.get String.eqb (snd e)
                                        resource_type 0)%Z) allocation ->
              Forall (fun e => (0 <= Py.get String.eqb (snd e)
                                        resource_type 0)%Z)
                (Main.ResourceOptimizationAgent.allocate_loop ops allocation
                   remaining)).
    { induction ops as [| o ops IH]; intros allocation remaining Hnn;
        [exact Hnn |].
      cbn [Main.ResourceOptimizationAgent.allocate_loop].
      pose proof (allocate_needs_conserves resource_type
                    (Main.ResourceOptimizationAgent.estimate_resource_needs o)
                    [] remaining (needs_keys_NoDup o)
                    (fun _ _ => eq_refl) (Z.le_refl 0)) as Hc.
      cbv zeta in Hc.
      destruct (Main.ResourceOptimizationAgent.allocate_needs _ [] remaining)
        as [opa rem'].
      cbn [fst snd] in Hc. destruct Hc as [_ Hopa].
      destruct opa as [| e opa]; apply IH; [exact Hnn |].
      apply setitem_Forall; [exact Hnn |]. intro k'. exact Hopa. }
    specialize (Hgen
                  (Py.sorted_desc_pair
                     (fun x =>
                        (Main.Opportunity.urgency x,
                         (- Z.of_nat
                              (List.length
                                 (Main.Opportunity.required_skills x)))%Z))
                     opportunities) [] available (Forall_nil _)).
    induction Hgen as [| e l He Hl IH]; simpl; lia.
  - apply allocate_loop_bounded; [constructor |]. simpl. lia.
Qed.

(** Two opportunities competing for two volunteers and 350 of funding: the
    more urgent one is served first and in full, the other gets what is
    left. *)
Lemma greedy_allocation_sample :
  Main.ResourceOptimizationAgent.allocate_resources
    [ Main.Opportunity.mk 1 1 ["teaching"; "youth_mentoring"];
      Main.Opportunity.mk 2 3 ["medical"] ]
    [ ("volunteers", 2%Z); ("funding", 350%Z) ]
  = [ (2%Z, [("volunteers", 1%Z); ("funding", 300%Z)]);
      (1%Z, [("volunteers", 1%Z); ("funding", 50%Z)]) ].
Proof. reflexivity. Qed.


